(** * PRISM blockchain indexer: event projection handlers and connection manager

    A shallow embedding of [backend/src/indexer/indexer.js] (the second
    document of [src/backend/src/config/index.js]): the ten contract event
    handlers, the Mongoose store operations they call, and the
    [connectWebSocket] retry loop, followed by the properties the
    specification states about them. *)

From Stdlib Require Import ZArith Lia Bool Ascii String List.
From stdpp Require Import base decidable option list strings gmap.
Import ListNotations.

(** ** JavaScript primitives used by the handlers *)

Module JS.

(** [Number(b)] for a BigInt [b]: the IEEE-754 binary64 value nearest to
    [b], ties to even.  The result is again an integer, so it is kept in
    [Z].  Chain integers are at most 256 bits wide, far below the binary64
    overflow threshold, so no infinity arises. *)
Definition Number (n : Z) : Z :=
  let a := Z.abs n in
  let e := (Z.log2 a - 52)%Z in
  if (e <=? 0)%Z then n
  else
    let q := Z.shiftr a e in
    let r := Z.land a (Z.ones e) in
    let half := Z.shiftl 1 (e - 1) in
    let q' := if ((half <? r) || ((r =? half) && Z.odd q))%Z%bool
              then (q + 1)%Z else q in
    (Z.sgn n * Z.shiftl q' e)%Z.

(** [x * y] on two integer-valued Numbers: the exact product, rounded. *)
Definition mul (x y : Z) : Z := Number (x * y).

(** A [Date] object: a time value in milliseconds, or an invalid date
    (time value NaN) when the argument is outside the range TimeClip
    accepts. *)
Inductive Date : Type :=
| TimeValue (ms : Z)
| InvalidDate.

Definition new_Date (v : Z) : Date :=
  if (Z.abs v <=? 8640000000000000)%Z then TimeValue v else InvalidDate.

(** [c.toLowerCase()] on one code unit.  Addresses are ASCII
    (["0x"] followed by hex digits); other code units are left alone. *)
Definition lower_ascii (c : ascii) : ascii :=
  let n := nat_of_ascii c in
  if ((65 <=? n)%nat && (n <=? 90)%nat)%bool then ascii_of_nat (n + 32) else c.

Fixpoint toLowerCase (s : string) : string :=
  match s with
  | EmptyString => EmptyString
  | String c s' => String (lower_ascii c) (toLowerCase s')
  end.

(** [s.length > 0] *)
Definition nonEmpty (s : string) : bool :=
  match s with EmptyString => false | String _ _ => true end.

(** [ToString] of a member that holds a string or is [undefined], as a
    template literal interpolates it. *)
Definition ToString (x : option string) : string :=
  match x with Some s => s | None => "undefined" end.

End JS.

#[global] Instance Date_eq_dec : EqDecision JS.Date.
Proof. solve_decision. Defined.

(** ** The projected store *)

(** Modelled from the spec: the Mongoose schemas ([backend/src/models/*.js])
    are not part of the sources at hand.  The documents below carry the
    fields of the data-model table of the specification together with every
    field the handlers write ([requestedHospitalId] is cleared by
    [handleRoleRevoked]).  Fields the table marks optional are [option]s. *)

Record RegistrationRequest : Type := mkRegistrationRequest {
  rr_requestId : Z;
  rr_hospitalName : string;
  rr_requesterAddress : string;
  rr_status : string
}.

Record Hospital : Type := mkHospital {
  h_hospitalId : Z;
  h_name : string;
  h_adminAddress : string;
  h_isVerified : bool;
  h_status : string
}.

Record User : Type := mkUser {
  u_address : string;
  u_name : string;
  u_role : string;
  u_hospitalId : option Z;
  u_requestedHospitalId : option Z;
  u_professionalStatus : string;
  u_isVerified : bool;
  u_publicKey : option string
}.

Record MedRecord : Type := mkMedRecord {
  r_recordId : Z;
  r_owner : string;
  r_title : string;
  r_ipfsHash : string;
  r_category : string;
  r_isVerified : bool;
  r_uploadedBy : string;
  r_timestamp : JS.Date
}.

Record AccessRequest : Type := mkAccessRequest {
  ar_requestId : Z;
  ar_recordIds : list Z;
  ar_professionalAddress : string;
  ar_patientAddress : string;
  ar_status : string
}.

Record AccessGrant : Type := mkAccessGrant {
  g_recordId : Z;
  g_patientAddress : string;
  g_professionalAddress : string;
  g_expirationTimestamp : JS.Date;
  g_rewrappedKey : string;
  g_createdAt : JS.Date
}.

#[global] Instance RegistrationRequest_eq_dec : EqDecision RegistrationRequest.
Proof. solve_decision. Defined.
#[global] Instance Hospital_eq_dec : EqDecision Hospital.
Proof. solve_decision. Defined.
#[global] Instance User_eq_dec : EqDecision User.
Proof. solve_decision. Defined.
#[global] Instance MedRecord_eq_dec : EqDecision MedRecord.
Proof. solve_decision. Defined.
#[global] Instance AccessRequest_eq_dec : EqDecision AccessRequest.
Proof. solve_decision. Defined.
#[global] Instance AccessGrant_eq_dec : EqDecision AccessGrant.
Proof. solve_decision. Defined.

(** One collection per model, in insertion order: a collection is a list of
    documents, so that duplicates are expressible and have to be excluded by
    proof. *)
Record Store : Type := mkStore {
  registrationRequests : list RegistrationRequest;
  hospitals : list Hospital;
  users : list User;
  records : list MedRecord;
  accessRequests : list AccessRequest;
  accessGrants : list AccessGrant
}.

Definition emptyStore : Store := mkStore [] [] [] [] [] [].

(** ** Mongoose query operations *)

Module Model.
Section Collection.
Context {D : Type}.

(** The first document matching [q] is replaced by its update; the
    result is the updated document and the new collection. *)
Fixpoint updateFirst (q : D -> bool) (f : D -> D) (c : list D)
  : option (D * list D) :=
  match c with
  | [] => None
  | d :: c' =>
      if q d then Some (f d, f d :: c')
      else match updateFirst q f c' with
           | Some (d', c'') => Some (d', d :: c'')
           | None => None
           end
  end.

(** [Model.findOne(filter)] *)
Fixpoint findOne (q : D -> bool) (c : list D) : option D :=
  match c with
  | [] => None
  | d :: c' => if q d then Some d else findOne q c'
  end.

(** [Model.findOneAndUpdate(filter, update, { upsert, new: true })].
    The update [f] rewrites the fields it names and keeps the others
    (Mongoose applies an update object without operators as a [$set]).
    [upsert] is [Some d] under [{ upsert: true }], [d] being the
    document an insert creates (the filter's equality fields with the
    update applied), and [None] without the option.  With [new: true]
    the call resolves to the document after the update, or to [null]
    when nothing matched and nothing was inserted. *)
Definition findOneAndUpdate (q : D -> bool) (f : D -> D)
    (upsert : option D) (c : list D) : option D * list D :=
  match updateFirst q f c with
  | Some (d', c') => (Some d', c')
  | None =>
      match upsert with
      | Some d => (Some d, c ++ [d])
      | None => (None, c)
      end
  end.

(** The result object of [updateMany]. *)
Record UpdateResult : Type := mkUpdateResult {
  matchedCount : nat;
  modifiedCount : nat
}.

(** [Model.updateMany(filter, update)]: every matching document is
    updated; [modifiedCount] counts the documents the update changed. *)
Definition updateMany `{EqDecision D} (q : D -> bool) (f : D -> D)
    (c : list D) : UpdateResult * list D :=
  (mkUpdateResult
     (length (List.filter q c))
     (length (List.filter (fun d => q d && negb (bool_decide (f d = d))) c)),
   List.map (fun d => if q d then f d else d) c).

(** [Model.deleteMany(filter)], resolving to the deleted count. *)
Definition deleteMany (q : D -> bool) (c : list D) : nat * list D :=
  (length (List.filter q c), List.filter (fun d => negb (q d)) c).

End Collection.
End Model.

(** Running an operation of one model against the store: [onUser op] is
    [User.op(...)], and so on for the six models the indexer requires. *)
Definition onRegistrationRequest {A} (op : list RegistrationRequest -> A * list RegistrationRequest)
    (s : Store) : A * Store :=
  (fst (op (registrationRequests s)),
   mkStore (snd (op (registrationRequests s))) (hospitals s) (users s) (records s) (accessRequests s) (accessGrants s)).

Definition onHospital {A} (op : list Hospital -> A * list Hospital)
    (s : Store) : A * Store :=
  (fst (op (hospitals s)),
   mkStore (registrationRequests s) (snd (op (hospitals s))) (users s) (records s) (accessRequests s) (accessGrants s)).

Definition onUser {A} (op : list User -> A * list User) (s : Store) : A * Store :=
  (fst (op (users s)),
   mkStore (registrationRequests s) (hospitals s) (snd (op (users s))) (records s) (accessRequests s) (accessGrants s)).

Definition onRecord {A} (op : list MedRecord -> A * list MedRecord)
    (s : Store) : A * Store :=
  (fst (op (records s)),
   mkStore (registrationRequests s) (hospitals s) (users s) (snd (op (records s))) (accessRequests s) (accessGrants s)).

Definition onAccessRequest {A} (op : list AccessRequest -> A * list AccessRequest)
    (s : Store) : A * Store :=
  (fst (op (accessRequests s)),
   mkStore (registrationRequests s) (hospitals s) (users s) (records s) (snd (op (accessRequests s))) (accessGrants s)).

Definition onAccessGrant {A} (op : list AccessGrant -> A * list AccessGrant)
    (s : Store) : A * Store :=
  (fst (op (accessGrants s)),
   mkStore (registrationRequests s) (hospitals s) (users s) (records s) (accessRequests s) (snd (op (accessGrants s)))).

(** ** The logger *)

Inductive Level : Type := Info | Warn | Error.

(** A template literal, kept as its pieces: the literal text and the
    interpolated values, in order. *)
Inductive Piece : Type :=
| Lit (s : string)
| Str (s : string)
| Num (n : Z)
| Nums (ns : list Z).

(** The metadata object passed after the message:
    [{ tx: event.transactionHash }] in the handlers ([None] is
    [undefined]), the error object itself in the provider's error
    listener. *)
Inductive Meta : Type :=
| Tx (transactionHash : option string)
| ErrorObject (message : string).

Record LogEntry : Type := mkLogEntry {
  level : Level;
  message : list Piece;
  meta : option Meta
}.

(** ** What a handler runs against *)

(** The block an event was mined in; [timestamp] is in epoch seconds. *)
Record Block : Type := mkBlock { timestamp : Z }.

(** The log an event was decoded from: it carries the hash of the
    transaction that emitted the event. *)
Record Log : Type := mkLog { log_transactionHash : string }.

(** The event payload, the last argument of every listener: what the
    member [event.transactionHash] holds ([None] is [undefined]),
    [event.log], and what [event.getBlock()] resolves to ([None] is
    [null]). *)
Record EventPayload : Type := mkEventPayload {
  transactionHash : option string;
  log : Log;
  getBlock : option Block
}.

(** The payload a listener is called with.  The indexer builds its
    providers and contracts with the constructors of ethers v6
    ([ethers.JsonRpcProvider], [ethers.WebSocketProvider],
    [ethers.Contract]), whose contracts pass a [ContractEventPayload]: the
    hash of the transaction is a member of [event.log], and the payload has
    no member [transactionHash] of its own. *)
Definition ContractEventPayload (log : Log) (block : option Block) : EventPayload :=
  {| transactionHash := None; log := log; getBlock := block |}.

(** The struct [httpContract.users(address)] resolves to. *)
Record OnChainUser : Type := mkOnChainUser { publicKey : string }.

(** A pending [setTimeout(callback, delay)].  The only function the indexer
    ever schedules is [connectWebSocket]. *)
Inductive Callback : Type := ConnectWebSocket.

Record Timer : Type := mkTimer {
  callback : Callback;
  delay : Z
}.

(** The state of the indexer process, as one invocation sees it and leaves
    it behind.
    - [db]: the MongoDB collections;
    - [logged]: what the logger has written, oldest first;
    - [httpContract_users]: the contract state read through [httpContract];
    - [faults]: the fate of the external operations to come, in order:
      [Some e] is an operation that throws (a promise that rejects with) an
      error of message [e], [None] one that succeeds; past the end of the
      list everything succeeds;
    - [providers]: the [WebSocketProvider] objects created so far, each with
      the names of the provider events it has a listener for;
    - [contracts]: the [Contract] objects bound to them, each with its
      listeners as (event name, handler name);
    - [timers]: the pending timeouts. *)
Record World : Type := mkWorld {
  db : Store;
  logged : list LogEntry;
  httpContract_users : string -> OnChainUser;
  faults : list (option string);
  providers : list (list string);
  contracts : list (list (string * string));
  timers : list Timer
}.

Definition set_db (s : Store) (w : World) : World :=
  mkWorld s (logged w) (httpContract_users w) (faults w) (providers w) (contracts w) (timers w).
Definition set_logged (l : list LogEntry) (w : World) : World :=
  mkWorld (db w) l (httpContract_users w) (faults w) (providers w) (contracts w) (timers w).
Definition set_faults (f : list (option string)) (w : World) : World :=
  mkWorld (db w) (logged w) (httpContract_users w) f (providers w) (contracts w) (timers w).
Definition set_providers (p : list (list string)) (w : World) : World :=
  mkWorld (db w) (logged w) (httpContract_users w) (faults w) p (contracts w) (timers w).
Definition set_contracts (c : list (list (string * string))) (w : World) : World :=
  mkWorld (db w) (logged w) (httpContract_users w) (faults w) (providers w) c (timers w).
Definition set_timers (t : list Timer) (w : World) : World :=
  mkWorld (db w) (logged w) (httpContract_users w) (faults w) (providers w) (contracts w) t.

(** How a piece of code completes: normally, or by throwing (for an async
    function: by rejecting) an error with the given message. *)
Inductive Completion (A : Type) : Type :=
| Normal (a : A) (w : World)
| Throw (e : string) (w : World).
Arguments Normal {A} a w.
Arguments Throw {A} e w.

Definition io (A : Type) : Type := World -> Completion A.

Definition ret {A} (a : A) : io A := fun w => Normal a w.

Definition bind {A B} (m : io A) (k : A -> io B) : io B := fun w =>
  match m w with
  | Normal a w' => k a w'
  | Throw e w' => Throw e w'
  end.

Notation "x <- m ;; k" := (bind m (fun x => k))
  (at level 20, m at level 99, k at level 200, only parsing).

(** [try { body } catch (e) { handler }] *)
Definition try_catch {A} (body : io A) (handler : string -> io A) : io A := fun w =>
  match body w with
  | Normal a w' => Normal a w'
  | Throw e w' => handler e w'
  end.

(** The world an invocation ends in, however it completes. *)
Definition finalWorld {A} (c : Completion A) : World :=
  match c with Normal _ w => w | Throw _ w => w end.

Definition exec {A} (m : io A) (w : World) : World := finalWorld (m w).

(** [logger.info(msg, meta)], [logger.warn(msg, meta)], [logger.error(msg, meta)] *)
Definition logger (l : Level) (msg : list Piece) (m : option Meta) : io unit := fun w =>
  Normal tt (set_logged (logged w ++ [mkLogEntry l msg m]) w).

(** An external operation completes: the next entry of [faults] decides
    whether it throws. *)
Definition settle : io unit := fun w =>
  match faults w with
  | [] => Normal tt w
  | None :: rest => Normal tt (set_faults rest w)
  | Some e :: rest => Throw e (set_faults rest w)
  end.

(** [await Model.op(...)].  The operation rejects where the fault plan
    says so, before the store is touched: the connection is lost, or
    Mongoose refuses the update (a document that does not validate, a value
    it cannot cast to the path's type, as an Invalid Date for a [Date]). *)
Definition awaitStore {A} (op : Store -> A * Store) : io A :=
  _ <- settle ;;
  (fun w => Normal (fst (op (db w))) (set_db (snd (op (db w))) w)).

(** [await httpContract.users(address)] *)
Definition awaitUsers (address : string) : io OnChainUser :=
  _ <- settle ;; (fun w => Normal (httpContract_users w address) w).

(** [await event.getBlock()] *)
Definition awaitGetBlock (event : EventPayload) : io (option Block) :=
  _ <- settle ;; ret (getBlock event).

(** ** The event handlers *)

Definition handleRegistrationRequested (requestId : Z) (hospitalName requesterAddress : string)
    (event : EventPayload) : io unit :=
  try_catch
    (let numericRequestId := JS.Number requestId in
     _ <- logger Info [Lit "[Event] RegistrationRequested: ID "; Num numericRequestId;
                  Lit " for "; Str hospitalName] None ;;
     _ <- awaitStore (onRegistrationRequest (Model.findOneAndUpdate
            (fun d => bool_decide (rr_requestId d = numericRequestId))
            (fun d => {| rr_requestId := numericRequestId;
                         rr_hospitalName := hospitalName;
                         rr_requesterAddress := requesterAddress;
                         rr_status := "pending_hospital" |})
            (Some {| rr_requestId := numericRequestId;
                     rr_hospitalName := hospitalName;
                     rr_requesterAddress := requesterAddress;
                     rr_status := "pending_hospital" |}))) ;;
     ret tt)
    (fun e =>
       logger Error [Lit "Error processing RegistrationRequested (ID: "; Num requestId;
                     Lit "): "; Str e] (Some (Tx (transactionHash event)))).

Definition handleHospitalVerified (hospitalId : Z) (adminAddress : string)
    (event : EventPayload) : io unit :=
  try_catch
    (let numericHospitalId := JS.Number hospitalId in
     _ <- logger Info [Lit "[Event] HospitalVerified: ID "; Num numericHospitalId;
                  Lit " for admin "; Str adminAddress; Lit "."] None ;;
     updatedRequest <- awaitStore (onRegistrationRequest (Model.findOneAndUpdate
            (fun d => bool_decide (rr_requestId d = numericHospitalId)
                      && bool_decide (rr_status d = "verifying"))
            (fun d => {| rr_requestId := rr_requestId d;
                         rr_hospitalName := rr_hospitalName d;
                         rr_requesterAddress := rr_requesterAddress d;
                         rr_status := "approved" |})
            None)) ;;
     match updatedRequest with
     | None =>
         logger Warn [Lit "[Indexer] Did not find a VERIFYING request for ID ";
                      Num numericHospitalId; Lit "."] (Some (Tx (transactionHash event)))
     | Some updatedRequest =>
         let hospitalName := rr_hospitalName updatedRequest in
         _ <- awaitStore (onHospital (Model.findOneAndUpdate
                (fun d => bool_decide (h_hospitalId d = numericHospitalId))
                (fun d => {| h_hospitalId := numericHospitalId;
                             h_name := hospitalName;
                             h_adminAddress := adminAddress;
                             h_isVerified := true;
                             h_status := "active" |})
                (Some {| h_hospitalId := numericHospitalId;
                         h_name := hospitalName;
                         h_adminAddress := adminAddress;
                         h_isVerified := true;
                         h_status := "active" |}))) ;;
         _ <- awaitStore (onUser (Model.findOneAndUpdate
                (fun d => bool_decide (u_address d = JS.toLowerCase adminAddress))
                (fun d => {| u_address := JS.toLowerCase adminAddress;
                             u_name := "Admin for " +:+ hospitalName;
                             u_role := "HospitalAdmin";
                             u_hospitalId := Some numericHospitalId;
                             u_requestedHospitalId := u_requestedHospitalId d;
                             u_professionalStatus := "approved";
                             u_isVerified := true;
                             u_publicKey := u_publicKey d |})
                (Some {| u_address := JS.toLowerCase adminAddress;
                         u_name := "Admin for " +:+ hospitalName;
                         u_role := "HospitalAdmin";
                         u_hospitalId := Some numericHospitalId;
                         u_requestedHospitalId := None;
                         u_professionalStatus := "approved";
                         u_isVerified := true;
                         u_publicKey := None |}))) ;;
         ret tt
     end)
    (fun e =>
       logger Error [Lit "Error processing HospitalVerified (ID: "; Num hospitalId;
                     Lit "): "; Str e] (Some (Tx (transactionHash event)))).

(** The [$set] of the cascading revocation. *)
Definition revokeProfessional (d : User) : User :=
  {| u_address := u_address d;
     u_name := u_name d;
     u_role := u_role d;
     u_hospitalId := u_hospitalId d;
     u_requestedHospitalId := u_requestedHospitalId d;
     u_professionalStatus := "revoked";
     u_isVerified := false;
     u_publicKey := u_publicKey d |}.

Definition handleHospitalRevoked (hospitalId : Z) (event : EventPayload) : io unit :=
  try_catch
    (let numericHospitalId := JS.Number hospitalId in
     _ <- logger Info [Lit "[Event] HospitalRevoked: ID "; Num numericHospitalId; Lit "."] None ;;
     _ <- awaitStore (onHospital (Model.findOneAndUpdate
            (fun d => bool_decide (h_hospitalId d = numericHospitalId)
                      && bool_decide (h_status d = "revoking"))
            (fun d => {| h_hospitalId := h_hospitalId d;
                         h_name := h_name d;
                         h_adminAddress := h_adminAddress d;
                         h_isVerified := false;
                         h_status := "revoked" |})
            None)) ;;
     updateResult <- awaitStore (onUser (Model.updateMany
            (fun d => bool_decide (u_hospitalId d = Some numericHospitalId))
            revokeProfessional)) ;;
     if (0 <? Model.modifiedCount updateResult)%nat
     then logger Info [Lit "[Cascading Revoke] Revoked ";
                       Num (Z.of_nat (Model.modifiedCount updateResult));
                       Lit " professionals for Hospital ID "; Num numericHospitalId;
                       Lit "."] None
     else ret tt)
    (fun e =>
       logger Error [Lit "Error processing HospitalRevoked (ID: "; Num hospitalId;
                     Lit "): "; Str e] (Some (Tx (transactionHash event)))).

(** [const roleEnumToString = { 1: "Doctor", 7: "LabTechnician" }] *)
Definition roleEnumToString (k : Z) : option string :=
  if (k =? 1)%Z then Some "Doctor"
  else if (k =? 7)%Z then Some "LabTechnician"
  else None.

Definition handleRoleAssigned (userAddress : string) (role hospitalId : Z)
    (event : EventPayload) : io unit :=
  try_catch
    (let roleName := default "Unassigned Professional" (roleEnumToString (JS.Number role)) in
     _ <- logger Info [Lit "[Event] RoleAssigned: "; Str roleName; Lit " to "; Str userAddress;
                  Lit " for Hospital ID "; Num hospitalId] None ;;
     _ <- awaitStore (onUser (Model.findOneAndUpdate
            (fun d => bool_decide (u_address d = JS.toLowerCase userAddress))
            (fun d => {| u_address := u_address d;
                         u_name := u_name d;
                         u_role := roleName;
                         u_hospitalId := Some (JS.Number hospitalId);
                         u_requestedHospitalId := u_requestedHospitalId d;
                         u_professionalStatus := "approved";
                         u_isVerified := true;
                         u_publicKey := u_publicKey d |})
            None)) ;;
     ret tt)
    (fun e =>
       logger Error [Lit "Error processing RoleAssigned (User: "; Str userAddress;
                     Lit "): "; Str e] (Some (Tx (transactionHash event)))).

Definition handleRoleRevoked (userAddress : string) (event : EventPayload) : io unit :=
  try_catch
    (_ <- logger Info [Lit "[Event] RoleRevoked from "; Str userAddress] None ;;
     _ <- awaitStore (onUser (Model.findOneAndUpdate
            (fun d => bool_decide (u_address d = JS.toLowerCase userAddress))
            (fun d => {| u_address := u_address d;
                         u_name := u_name d;
                         u_role := "Patient";
                         u_hospitalId := None;
                         u_requestedHospitalId := None;
                         u_professionalStatus := "revoked";
                         u_isVerified := false;
                         u_publicKey := u_publicKey d |})
            None)) ;;
     ret tt)
    (fun e =>
       logger Error [Lit "Error processing RoleRevoked (User: "; Str userAddress;
                     Lit "): "; Str e] (Some (Tx (transactionHash event)))).

Definition handlePublicKeySaved (userAddress : string) (event : EventPayload) : io unit :=
  try_catch
    (_ <- logger Info [Lit "[Event] PublicKeySaved: for user "; Str userAddress] None ;;
     userOnChain <- awaitUsers userAddress ;;
     if JS.nonEmpty (publicKey userOnChain)
     then
       _ <- awaitStore (onUser (Model.findOneAndUpdate
              (fun d => bool_decide (u_address d = JS.toLowerCase userAddress))
              (fun d => {| u_address := u_address d;
                           u_name := u_name d;
                           u_role := u_role d;
                           u_hospitalId := u_hospitalId d;
                           u_requestedHospitalId := u_requestedHospitalId d;
                           u_professionalStatus := u_professionalStatus d;
                           u_isVerified := u_isVerified d;
                           u_publicKey := Some (publicKey userOnChain) |})
              None)) ;;
       ret tt
     else ret tt)
    (fun e =>
       logger Error [Lit "Error processing PublicKeySaved (User: "; Str userAddress;
                     Lit "): "; Str e] (Some (Tx (transactionHash event)))).

Definition handleRecordAdded (recordId : Z) (owner title ipfsHash category : string)
    (isVerified : bool) (verifiedBy : string) (timestamp : Z)
    (event : EventPayload) : io unit :=
  try_catch
    (let numericRecordId := JS.Number recordId in
     _ <- logger Info [Lit "[Event] RecordAdded: ID "; Num numericRecordId;
                       Lit " for owner "; Str owner] None ;;
     _ <- awaitStore (onRecord (Model.findOneAndUpdate
            (fun d => bool_decide (r_recordId d = numericRecordId))
            (fun d => {| r_recordId := numericRecordId;
                         r_owner := JS.toLowerCase owner;
                         r_title := title;
                         r_ipfsHash := ipfsHash;
                         r_category := category;
                         r_isVerified := isVerified;
                         r_uploadedBy := JS.toLowerCase verifiedBy;
                         r_timestamp := JS.new_Date (JS.mul (JS.Number timestamp) 1000) |})
            (Some {| r_recordId := numericRecordId;
                     r_owner := JS.toLowerCase owner;
                     r_title := title;
                     r_ipfsHash := ipfsHash;
                     r_category := category;
                     r_isVerified := isVerified;
                     r_uploadedBy := JS.toLowerCase verifiedBy;
                     r_timestamp := JS.new_Date (JS.mul (JS.Number timestamp) 1000) |}))) ;;
     ret tt)
    (fun e =>
       logger Error [Lit "Error processing RecordAdded (ID: "; Num recordId;
                     Lit "): "; Str e] (Some (Tx (transactionHash event)))).

Definition handleProfessionalAccessRequested (requestId : Z) (recordIds : list Z)
    (professional patient : string) (event : EventPayload) : io unit :=
  try_catch
    (let numericRequestId := JS.Number requestId in
     _ <- logger Info [Lit "[Event] ProfessionalAccessRequested: ID "; Num numericRequestId;
                       Lit " from "; Str professional; Lit " to "; Str patient] None ;;
     _ <- awaitStore (onAccessRequest (Model.findOneAndUpdate
            (fun d => bool_decide (ar_requestId d = numericRequestId))
            (fun d => {| ar_requestId := numericRequestId;
                         ar_recordIds := List.map JS.Number recordIds;
                         ar_professionalAddress := JS.toLowerCase professional;
                         ar_patientAddress := JS.toLowerCase patient;
                         ar_status := "pending" |})
            (Some {| ar_requestId := numericRequestId;
                     ar_recordIds := List.map JS.Number recordIds;
                     ar_professionalAddress := JS.toLowerCase professional;
                     ar_patientAddress := JS.toLowerCase patient;
                     ar_status := "pending" |}))) ;;
     ret tt)
    (fun e =>
       logger Error [Lit "Error processing ProfessionalAccessRequested (ID: "; Num requestId;
                     Lit "): "; Str e] (Some (Tx (transactionHash event)))).

(** The document [handleAccessGranted] writes for a grant. *)
Definition grantDocument (numericRecordId : Z) (owner grantee : string) (expiration : Z)
    (encryptedDek : string) (eventTimestamp : JS.Date) : AccessGrant :=
  {| g_recordId := numericRecordId;
     g_patientAddress := JS.toLowerCase owner;
     g_professionalAddress := JS.toLowerCase grantee;
     g_expirationTimestamp := JS.new_Date (JS.mul (JS.Number expiration) 1000);
     g_rewrappedKey := encryptedDek;
     g_createdAt := eventTimestamp |}.

Definition handleAccessGranted (recordId : Z) (owner grantee : string) (expiration : Z)
    (encryptedDek : string) (event : EventPayload) : io unit :=
  try_catch
    (block <- awaitGetBlock event ;;
     match block with
     | None =>
         logger Warn [Lit "Could not fetch block for event at hash: ";
                      Str (JS.ToString (transactionHash event))] None
     | Some block =>
         let eventTimestamp := JS.new_Date (JS.mul (timestamp block) 1000) in
         let numericRecordId := JS.Number recordId in
         _ <- logger Info [Lit "[Event] AccessGranted: Record ID "; Num numericRecordId;
                           Lit " to grantee "; Str grantee] None ;;
         _ <- awaitStore (onAccessGrant (Model.findOneAndUpdate
                (fun d => bool_decide (g_recordId d = numericRecordId)
                          && bool_decide (g_professionalAddress d = JS.toLowerCase grantee))
                (fun d => grantDocument numericRecordId owner grantee expiration
                                        encryptedDek eventTimestamp)
                (Some (grantDocument numericRecordId owner grantee expiration
                                     encryptedDek eventTimestamp)))) ;;
         ret tt
     end)
    (fun e =>
       logger Error [Lit "Error processing AccessGranted (ID: "; Num recordId;
                     Lit "): "; Str e] (Some (Tx (transactionHash event)))).

Definition handleAccessRevoked (patient professional : string) (recordIds : list Z)
    (event : EventPayload) : io unit :=
  try_catch
    (let numericRecordIds := List.map JS.Number recordIds in
     _ <- logger Info [Lit "[Event] AccessRevoked: Professional "; Str professional;
                       Lit " from records ["; Nums numericRecordIds; Lit "]"] None ;;
     _ <- awaitStore (onAccessGrant (Model.deleteMany
            (fun d => bool_decide (g_professionalAddress d = JS.toLowerCase professional)
                      && bool_decide (g_recordId d ∈ numericRecordIds)))) ;;
     ret tt)
    (fun e =>
       logger Error [Lit "Error processing AccessRevoked (User: "; Str professional;
                     Lit "): "; Str e] (Some (Tx (transactionHash event)))).

(** ** Event dispatch *)

(** The ten events [connectWebSocket] subscribes to, with their decoded
    arguments. *)
Inductive ChainEvent : Type :=
| RegistrationRequested (requestId : Z) (hospitalName requesterAddress : string)
| HospitalVerified (hospitalId : Z) (adminAddress : string)
| HospitalRevoked (hospitalId : Z)
| RoleAssigned (userAddress : string) (role hospitalId : Z)
| RoleRevoked (userAddress : string)
| PublicKeySaved (userAddress : string)
| RecordAdded (recordId : Z) (owner title ipfsHash category : string)
    (isVerified : bool) (verifiedBy : string) (timestamp : Z)
| ProfessionalAccessRequested (requestId : Z) (recordIds : list Z)
    (professional patient : string)
| AccessGranted (recordId : Z) (owner grantee : string) (expiration : Z)
    (encryptedDek : string)
| AccessRevoked (patient professional : string) (recordIds : list Z).

(** The listener table of [wssContract.on(name, handler)]: the handler an
    emitted event is delivered to. *)
Definition deliver (ev : ChainEvent) (event : EventPayload) : io unit :=
  match ev with
  | RegistrationRequested requestId hospitalName requesterAddress =>
      handleRegistrationRequested requestId hospitalName requesterAddress event
  | HospitalVerified hospitalId adminAddress =>
      handleHospitalVerified hospitalId adminAddress event
  | HospitalRevoked hospitalId => handleHospitalRevoked hospitalId event
  | RoleAssigned userAddress role hospitalId =>
      handleRoleAssigned userAddress role hospitalId event
  | RoleRevoked userAddress => handleRoleRevoked userAddress event
  | PublicKeySaved userAddress => handlePublicKeySaved userAddress event
  | RecordAdded recordId owner title ipfsHash category isVerified verifiedBy timestamp =>
      handleRecordAdded recordId owner title ipfsHash category isVerified verifiedBy
                        timestamp event
  | ProfessionalAccessRequested requestId recordIds professional patient =>
      handleProfessionalAccessRequested requestId recordIds professional patient event
  | AccessGranted recordId owner grantee expiration encryptedDek =>
      handleAccessGranted recordId owner grantee expiration encryptedDek event
  | AccessRevoked patient professional recordIds =>
      handleAccessRevoked patient professional recordIds event
  end.

(** ** The connection manager *)

(** The part of [config] the connection manager reads. *)
Record Config : Type := mkConfig {
  polygonAmoyWssUrl : string;
  contractAddress : string
}.

(** [new ethers.WebSocketProvider(url)]: throws, or yields a new provider
    (its index in [providers]) without listeners. *)
Definition new_WebSocketProvider (url : string) : io nat :=
  _ <- settle ;;
  (fun w => Normal (length (providers w)) (set_providers (providers w ++ [[]]) w)).

(** [new ethers.Contract(address, abi, provider)]: throws, or yields a new
    contract object (its index in [contracts]) without listeners. *)
Definition new_Contract (address : string) (provider : nat) : io nat :=
  _ <- settle ;;
  (fun w => Normal (length (contracts w)) (set_contracts (contracts w ++ [[]]) w)).

(** [provider.on(name, listener)] *)
Definition provider_on (provider : nat) (name : string) : io unit :=
  _ <- settle ;;
  (fun w => Normal tt (set_providers (alter (fun ls => ls ++ [name]) provider (providers w)) w)).

(** [contract.on(name, handler)] *)
Definition contract_on (contract : nat) (name handler : string) : io unit :=
  _ <- settle ;;
  (fun w => Normal tt
     (set_contracts (alter (fun ls => ls ++ [(name, handler)]) contract (contracts w)) w)).

(** [contract.removeAllListeners()] *)
Definition removeAllListeners (contract : nat) : io unit := fun w =>
  Normal tt (set_contracts (alter (fun _ => []) contract (contracts w)) w).

(** [setTimeout(callback, delay)] *)
Definition setTimeout (cb : Callback) (ms : Z) : io unit := fun w =>
  Normal tt (set_timers (timers w ++ [mkTimer cb ms]) w).

(** The listener [connectWebSocket] registers for the provider's
    ["network"] event; [oldNetwork] tells whether an old network was passed. *)
Definition onNetwork (name : string) (chainId : Z) (oldNetwork : bool) : io unit :=
  if oldNetwork
  then logger Info [Lit "WebSocket re-connected to network: "; Str name] None
  else logger Info [Lit "WebSocket connected to network: "; Str name;
                    Lit " (ChainId: "; Num chainId; Lit ")"] None.

(** The listener [connectWebSocket] registers for the provider's ["error"]
    event: it logs, and does nothing else. *)
Definition onProviderError (message : string) : io unit :=
  logger Error [Lit "WebSocket Provider Error: "; Str message] (Some (ErrorObject message)).

(** The [catch] block of [connectWebSocket]; [wssContract] is the local
    variable of that name, [None] while it is still unassigned. *)
Definition retryConnect (wssContract : option nat) (message : string) : io unit :=
  _ <- logger Error [Lit "Failed to initialize WebSocket provider: "; Str message;
                     Lit ". Retrying in 5 seconds..."] None ;;
  _ <- match wssContract with
       | Some c => removeAllListeners c
       | None => ret tt
       end ;;
  setTimeout ConnectWebSocket 5000.

(** [connectWebSocket].  The single [try] block is written as two
    consecutive ones that share the [catch] block: up to the assignment of
    [wssContract] the handler sees the variable unassigned, after it the
    handler sees the new contract. *)
Definition connectWebSocket (config : Config) : io unit :=
  created <- try_catch
    (_ <- logger Info [Lit "Connecting to WebSocket at "; Str (polygonAmoyWssUrl config);
                       Lit "..."] None ;;
     wssProvider <- new_WebSocketProvider (polygonAmoyWssUrl config) ;;
     wssContract <- new_Contract (contractAddress config) wssProvider ;;
     ret (Some (wssProvider, wssContract)))
    (fun e => _ <- retryConnect None e ;; ret None) ;;
  match created with
  | None => ret tt
  | Some (wssProvider, wssContract) =>
      try_catch
        (_ <- provider_on wssProvider "network" ;;
         _ <- provider_on wssProvider "error" ;;
         _ <- logger Info [Lit "WebSocket provider connected. Attaching contract event listeners..."] None ;;
         _ <- contract_on wssContract "RegistrationRequested" "handleRegistrationRequested" ;;
         _ <- contract_on wssContract "HospitalVerified" "handleHospitalVerified" ;;
         _ <- contract_on wssContract "HospitalRevoked" "handleHospitalRevoked" ;;
         _ <- contract_on wssContract "RoleAssigned" "handleRoleAssigned" ;;
         _ <- contract_on wssContract "RoleRevoked" "handleRoleRevoked" ;;
         _ <- contract_on wssContract "PublicKeySaved" "handlePublicKeySaved" ;;
         _ <- contract_on wssContract "RecordAdded" "handleRecordAdded" ;;
         _ <- contract_on wssContract "ProfessionalAccessRequested" "handleProfessionalAccessRequested" ;;
         _ <- contract_on wssContract "AccessGranted" "handleAccessGranted" ;;
         _ <- contract_on wssContract "AccessRevoked" "handleAccessRevoked" ;;
         logger Info [Lit "All contract event listeners attached."] None)
        (retryConnect (Some wssContract))
  end.

(** The runtime fires the oldest pending timer: it is removed and its
    callback runs. *)
Definition fireTimer (config : Config) : io unit := fun w =>
  match timers w with
  | [] => Normal tt w
  | t :: rest =>
      match callback t with
      | ConnectWebSocket => connectWebSocket config (set_timers rest w)
      end
  end.

(** The ten listeners a subscribed contract carries, in attachment order. *)
Definition allListeners : list (string * string) :=
  [("RegistrationRequested", "handleRegistrationRequested");
   ("HospitalVerified", "handleHospitalVerified");
   ("HospitalRevoked", "handleHospitalRevoked");
   ("RoleAssigned", "handleRoleAssigned");
   ("RoleRevoked", "handleRoleRevoked");
   ("PublicKeySaved", "handlePublicKeySaved");
   ("RecordAdded", "handleRecordAdded");
   ("ProfessionalAccessRequested", "handleProfessionalAccessRequested");
   ("AccessGranted", "handleAccessGranted");
   ("AccessRevoked", "handleAccessRevoked")].

(** ** Invariants of the data model *)

(** The business key of an access grant. *)
Definition grantKey (g : AccessGrant) : Z * string :=
  (g_recordId g, g_professionalAddress g).

(** At most one document per business key in a collection. *)
Definition uniqueBy {D K : Type} (key : D -> K) (c : list D) : Prop :=
  NoDup (List.map key c).

(** The data model's keys: every collection holds at most one document per
    business key. *)
Record keyed (s : Store) : Prop := mkKeyed {
  keyed_requests : uniqueBy rr_requestId (registrationRequests s);
  keyed_hospitals : uniqueBy h_hospitalId (hospitals s);
  keyed_users : uniqueBy u_address (users s);
  keyed_records : uniqueBy r_recordId (records s);
  keyed_accessRequests : uniqueBy ar_requestId (accessRequests s);
  keyed_grants : uniqueBy grantKey (accessGrants s)
}.

(** A property of the store that an invocation keeps, however it ends. *)
Definition preserves {A} (I : Store -> Prop) (m : io A) : Prop :=
  forall w, I (db w) -> I (db (finalWorld (m w))).

(** A world around the store [s] with an empty log, no pending fault, no
    key on chain and nothing connected. *)
Definition quietWorld (s : Store) : World :=
  mkWorld s [] (fun _ => mkOnChainUser "") [] [] [] [].

(** A retry of [connectWebSocket] is scheduled, five seconds out. *)
Definition retryPending (w : World) : Prop :=
  mkTimer ConnectWebSocket 5000 ∈ timers w.

(** ** Starting the indexer *)

(** [httpProvider = new ethers.JsonRpcProvider(url)]: throws, or yields the
    provider the read-only contract is bound to. *)
Definition new_JsonRpcProvider (url : string) : io unit := settle.

(** [httpContract = new ethers.Contract(address, abi, httpProvider)]:
    throws, or yields the contract whose [users] the handlers read
    ([httpContract_users]). *)
Definition new_httpContract (address : string) : io unit := settle.

(** [startIndexer]; [providerUrl] is [config.providerUrl].  The function is
    [async] and awaits nothing: it runs to its end when called, and an
    error thrown on the way rejects the promise it returns. *)
Definition startIndexer (providerUrl : string) (config : Config) : io unit :=
  _ <- logger Info [Lit "Initializing blockchain indexer..."] None ;;
  _ <- new_JsonRpcProvider providerUrl ;;
  _ <- new_httpContract (contractAddress config) ;;
  _ <- logger Info [Lit "HTTP provider initialized for read calls at: "; Str providerUrl] None ;;
  _ <- logger Info [Lit "Indexer will listen to contract at address: ";
                    Str (contractAddress config)] None ;;
  connectWebSocket config.

(** The process: running, or ended by [process.exit(code)]. *)
Inductive Process : Type :=
| Alive (w : World)
| Exited (code : Z) (w : World).

(** The listener of [process.on('unhandledRejection', ...)]; [reason] is
    the message of the error the promise was rejected with (the promise,
    which the entry also prints, is left out of it). *)
Definition onUnhandledRejection (reason : string) (w : World) : Process :=
  Exited 1 (exec (logger Error [Lit "Unhandled Rejection at:"; Lit "reason:"; Str reason]
                         None) w).

(** [gracefulShutdown], the listener of [SIGINT] and [SIGTERM]. *)
Definition gracefulShutdown (w : World) : Process :=
  Exited 0 (exec (logger Info [Lit "Shutting down indexer gracefully."] None) w).

(** A call whose promise nobody awaits or catches, as [startIndexer(wss)]
    in the server's start-up: if the promise rejects, the runtime raises
    [unhandledRejection]. *)
Definition detached (m : io unit) (w : World) : Process :=
  match m w with
  | Normal _ w' => Alive w'
  | Throw e w' => onUnhandledRejection e w'
  end.

(** ** The backend configuration *)

(** [!x] for a value read from [process.env]: the variable is unset or is
    the empty string. *)
Definition falsy (x : option string) : bool :=
  match x with
  | Some (String _ _) => false
  | _ => true
  end.

(** The [config] object of [backend/src/config/index.js]. *)
Record BackendConfig : Type := mkBackendConfig {
  cfg_port : string + Z;
  cfg_mongoURI : option string;
  cfg_jwtSecret : option string;
  cfg_providerUrl : option string;
  cfg_contractAddress : option string;
  cfg_superAdminPrivateKey : option string;
  cfg_sponsorPrivateKey : option string;
  cfg_frontendUrl : option string
}.

(** [process.env.PORT || 3001] *)
Definition portOf (env : gmap string string) : string + Z :=
  if falsy (env !! "PORT") then inr 3001%Z
  else match env !! "PORT" with Some p => inl p | None => inr 3001%Z end.

Definition readConfig (env : gmap string string) : BackendConfig :=
  {| cfg_port := portOf env;
     cfg_mongoURI := env !! "MONGO_URI";
     cfg_jwtSecret := env !! "JWT_SECRET";
     cfg_providerUrl := env !! "PROVIDER_URL";
     cfg_contractAddress := env !! "CONTRACT_ADDRESS";
     cfg_superAdminPrivateKey := env !! "SUPER_ADMIN_PRIVATE_KEY";
     cfg_sponsorPrivateKey := env !! "SPONSOR_PRIVATE_KEY";
     cfg_frontendUrl := env !! "FRONTEND_URL" |}.

(** What requiring a module comes to: its exports, or the end of the
    process; in both cases with what it wrote through [console.error]. *)
Inductive ModuleLoad (C : Type) : Type :=
| Exports (config : C) (stderr : list string)
| ProcessExit (code : Z) (stderr : list string).
Arguments Exports {C} config stderr.
Arguments ProcessExit {C} code stderr.

(** Loading [backend/src/config/index.js] under the environment [env]. *)
Definition loadConfig (env : gmap string string) : ModuleLoad BackendConfig :=
  let config := readConfig env in
  if falsy (cfg_mongoURI config)
     || falsy (cfg_providerUrl config)
     || falsy (cfg_contractAddress config)
     || falsy (cfg_superAdminPrivateKey config)
     || falsy (cfg_sponsorPrivateKey config)
     || falsy (cfg_jwtSecret config)
  then
    let stderr := ["FATAL ERROR: Missing required environment variables. Please check the Render environment settings."] in
    if negb (bool_decide (env !! "NODE_ENV" = Some "test"))
    then ProcessExit 1 stderr
    else Exports config stderr
  else Exports config [].

(** The later version of the configuration module, which adds the
    WebSocket endpoint the indexer subscribes through. *)
Record BackendConfigWss : Type := mkBackendConfigWss {
  wss_port : string + Z;
  wss_mongoURI : option string;
  wss_jwtSecret : option string;
  wss_providerUrl : option string;
  wss_polygonAmoyWssUrl : option string;
  wss_contractAddress : option string;
  wss_superAdminPrivateKey : option string;
  wss_sponsorPrivateKey : option string;
  wss_frontendUrl : option string
}.

Definition readConfigWss (env : gmap string string) : BackendConfigWss :=
  {| wss_port := portOf env;
     wss_mongoURI := env !! "MONGO_URI";
     wss_jwtSecret := env !! "JWT_SECRET";
     wss_providerUrl := env !! "PROVIDER_URL";
     wss_polygonAmoyWssUrl := env !! "POLYGON_AMOY_WSS_URL";
     wss_contractAddress := env !! "CONTRACT_ADDRESS";
     wss_superAdminPrivateKey := env !! "SUPER_ADMIN_PRIVATE_KEY";
     wss_sponsorPrivateKey := env !! "SPONSOR_PRIVATE_KEY";
     wss_frontendUrl := env !! "FRONTEND_URL" |}.

Definition loadConfigWss (env : gmap string string) : ModuleLoad BackendConfigWss :=
  let config := readConfigWss env in
  if falsy (wss_mongoURI config)
     || falsy (wss_providerUrl config)
     || falsy (wss_polygonAmoyWssUrl config)
     || falsy (wss_contractAddress config)
     || falsy (wss_superAdminPrivateKey config)
     || falsy (wss_sponsorPrivateKey config)
     || falsy (wss_jwtSecret config)
  then
    let stderr := ["FATAL ERROR: Missing required environment variables. Please check the Render environment settings. (mongoURI, providerUrl, polygonAmoyWssUrl, contractAddress, superAdminPrivateKey, sponsorPrivateKey, jwtSecret)"] in
    if negb (bool_decide (env !! "NODE_ENV" = Some "test"))
    then ProcessExit 1 stderr
    else Exports config stderr
  else Exports config [].

(** The environment variables the first version insists on. *)
Definition requiredVariables : list string :=
  ["MONGO_URI"; "PROVIDER_URL"; "CONTRACT_ADDRESS"; "SUPER_ADMIN_PRIVATE_KEY";
   "SPONSOR_PRIVATE_KEY"; "JWT_SECRET"].

(** The indexer has a subscription with all ten listeners, or a retry of
    [connectWebSocket] pending. *)
Definition subscribedOrRetrying (w : World) : Prop :=
  retryPending w \/ allListeners ∈ contracts w.

(** Two environments to try the loaders on: one with every variable of the
    first version set, and the same with an empty sponsor key. *)
Definition completeEnvironment : gmap string string :=
  <["MONGO_URI" := "mongodb://db"]> (<["PROVIDER_URL" := "https://rpc"]>
  (<["CONTRACT_ADDRESS" := "0xC0"]> (<["SUPER_ADMIN_PRIVATE_KEY" := "k1"]>
  (<["SPONSOR_PRIVATE_KEY" := "k2"]> (<["JWT_SECRET" := "s"]> ∅))))).

Definition incompleteEnvironment : gmap string string :=
  <["SPONSOR_PRIVATE_KEY" := ""]> completeEnvironment.

(** ** The IPFS client of the web application *)

(** What a promise settles to. *)
Inductive Settled (A : Type) : Type :=
| Fulfilled (a : A)
| Rejected (reason : string).
Arguments Fulfilled {A} a.
Arguments Rejected {A} reason.

(** The members of a parsed JSON body that the client reads; each is a
    string or absent. *)
Record JsonBody : Type := mkJsonBody {
  body_message : option string;
  body_IpfsHash : option string
}.

(** A [Response]: [ok], [status], [statusText] and what [response.json()]
    settles to. *)
Record Response : Type := mkResponse {
  resp_ok : bool;
  resp_status : Z;
  resp_statusText : string;
  resp_json : Settled JsonBody
}.

(** The [File] of an upload. *)
Record File : Type := mkFile {
  file_name : string;
  file_content : string
}.

(** A part of a [FormData]: the file with its file name, the text of
    [JSON.stringify({ name, keyvalues: { app } })], or the text of
    [JSON.stringify({ cidVersion })]. *)
Inductive FormPart : Type :=
| FilePart (file : File) (filename : string)
| MetadataJson (name app : string)
| OptionsJson (cidVersion : Z).

(** What the client does that shows outside of it, in order. *)
Inductive Effect : Type :=
| Get (url : string)
| Post (url : string) (authorization : string) (form : list (string * FormPart))
| ConsoleLog (msg : list Piece)
| ConsoleWarn (msg : list Piece)
| ConsoleError (msg : list Piece)
| ConsoleErrorData (label : string) (data : JsonBody)
| ToastError (msg : string).

(** [const gateways], in order of preference. *)
Definition gateways : list string :=
  ["https://gateway.pinata.cloud/ipfs/";
   "https://cloudflare-ipfs.com/ipfs/";
   "https://ipfs.io/ipfs/";
   "https://dweb.link/ipfs/";
   "https://gateway.ipfs.io/ipfs/"].

(** The loop [for (const gateway of gateways)] of [fetchFromIPFS], from
    the gateways [gs] on; [fetch] is what [fetch(url)] settles to.  The
    result is the response the function returns, or [None] when the loop
    runs to its end. *)
Fixpoint tryGateways (fetch : string -> Settled Response) (ipfsHash : string)
    (gs : list string) : list Effect * option Response :=
  match gs with
  | [] => ([], None)
  | gateway :: rest =>
      let url := gateway +:+ ipfsHash in
      match fetch url with
      | Fulfilled response =>
          if resp_ok response
          then ([Get url;
                 ConsoleLog [Lit "Successfully fetched "; Str ipfsHash; Lit " from ";
                             Str gateway]],
                Some response)
          else
            let (effects, result) := tryGateways fetch ipfsHash rest in
            (Get url
             :: ConsoleWarn [Lit "Failed to fetch "; Str ipfsHash; Lit " from "; Str gateway;
                             Lit ", status: "; Num (resp_status response)]
             :: effects, result)
      | Rejected error =>
          let (effects, result) := tryGateways fetch ipfsHash rest in
          (Get url
           :: ConsoleError [Lit "Error fetching "; Str ipfsHash; Lit " from "; Str gateway;
                            Lit ":"; Str error]
           :: effects, result)
      end
  end.

(** [fetchFromIPFS(ipfsHash)]: the response, or the message of the error
    thrown. *)
Definition fetchFromIPFS (fetch : string -> Settled Response) (ipfsHash : string)
  : list Effect * (Response + string) :=
  match tryGateways fetch ipfsHash gateways with
  | (effects, Some response) => (effects, inl response)
  | (effects, None) =>
      (effects ++ [ToastError ("Failed to fetch file " +:+ ipfsHash +:+ " from all gateways.")],
       inr ("Failed to fetch " +:+ ipfsHash +:+ " from all available IPFS gateways."))
  end.

(** The URLs requested, in order. *)
Fixpoint requested (effects : list Effect) : list string :=
  match effects with
  | [] => []
  | Get url :: rest => url :: requested rest
  | Post url _ _ :: rest => url :: requested rest
  | _ :: rest => requested rest
  end.

(** The toasts shown, in order. *)
Fixpoint toasts (effects : list Effect) : list string :=
  match effects with
  | [] => []
  | ToastError msg :: rest => msg :: toasts rest
  | _ :: rest => toasts rest
  end.

(** The request [uploadToIPFS] sends for a file under a JWT. *)
Definition pinRequest (jwt : string) (file : File) : Effect :=
  Post "https://api.pinata.cloud/pinning/pinFileToIPFS"
       ("Bearer " +:+ jwt)
       [("file", FilePart file (file_name file));
        ("pinataMetadata", MetadataJson (file_name file) "PRISM-Medical-Records");
        ("pinataOptions", OptionsJson 1)].

(** The [catch] block of [uploadToIPFS]: log, toast, rethrow. *)
Definition uploadFailed {A} (before : list Effect) (message : string)
  : list Effect * (A + string) :=
  (before ++ [ConsoleError [Lit "Error uploading to IPFS:"; Str message];
              ToastError ("Upload failed: " +:+ message)],
   inr message).

(** [uploadToIPFS(file)]; [jwt] is [process.env.NEXT_PUBLIC_PINATA_JWT] and
    [fetch] is what the request settles to.  A body that parses is taken
    to be a JSON object.  The result is the value returned
    ([data.IpfsHash], possibly [undefined]) or the message of the error
    thrown. *)
Definition uploadToIPFS (jwt : option string) (fetch : Effect -> Settled Response)
    (file : File) : list Effect * (option string + string) :=
  if falsy jwt
  then ([ConsoleError [Lit "Missing NEXT_PUBLIC_PINATA_JWT environment variable."];
         ToastError "File upload is not configured."],
        inr "Pinata JWT not found.")
  else
    let request := pinRequest (default "" jwt) file in
    match fetch request with
    | Rejected error => uploadFailed [request] error
    | Fulfilled response =>
        if negb (resp_ok response)
        then
          let errorData :=
            match resp_json response with
            | Fulfilled data => data
            | Rejected _ => mkJsonBody (Some "Unknown Pinata error") None
            end in
          uploadFailed
            [request;
             ConsoleErrorData "Pinata API Error:" errorData]
            ("Pinata upload failed: "
             +:+ (if falsy (body_message errorData)
                  then resp_statusText response
                  else default "" (body_message errorData)))
        else
          match resp_json response with
          | Fulfilled data => ([request], inl (body_IpfsHash data))
          | Rejected error => uploadFailed [request] error
          end
    end.

(** A gateway answers: [fetch] of its URL settles to an [ok] response. *)
Definition answers (fetch : string -> Settled Response) (ipfsHash gateway : string) : Prop :=
  exists r, fetch (gateway +:+ ipfsHash) = Fulfilled r /\ resp_ok r = true.

(** ** Checks of the JavaScript primitives *)

Example Number_small : JS.Number 7 = 7%Z.
Proof. reflexivity. Qed.

Example Number_2_53_plus_1 : JS.Number 9007199254740993 = 9007199254740992%Z.
Proof. reflexivity. Qed.

Example Number_2_53_plus_3 : JS.Number 9007199254740995 = 9007199254740996%Z.
Proof. reflexivity. Qed.

Example Number_negative : JS.Number (-9007199254740993) = (-9007199254740992)%Z.
Proof. reflexivity. Qed.

Example new_Date_out_of_range : JS.new_Date (JS.mul 8640000000001 1000) = JS.InvalidDate.
Proof. reflexivity. Qed.

Example toLowerCase_address : JS.toLowerCase "0xAbCdEF01" = "0xabcdef01".
Proof. reflexivity. Qed.

(** Below 2^53 every integer is a Number. *)
Lemma Number_exact (n : Z) : (Z.abs n < 2 ^ 53)%Z -> JS.Number n = n.
Proof.
  intros H. unfold JS.Number.
  destruct (Z.eq_dec n 0%Z) as [->|Hn]; [reflexivity|].
  assert (Z.log2 (Z.abs n) < 53)%Z by (apply Z.log2_lt_pow2; lia).
  destruct (Z.leb_spec (Z.log2 (Z.abs n) - 52) 0%Z); [reflexivity | lia].
Qed.

(** ** Facts about the query operations *)

Section ModelFacts.
Context {D : Type}.
Implicit Types (q : D -> bool) (f : D -> D) (c : list D).

Lemma updateFirst_None q f c :
  Model.updateFirst q f c = None <-> Forall (fun d => q d = false) c.
Proof.
  induction c as [|d c IH]; simpl.
  - split; [constructor | reflexivity].
  - destruct (q d) eqn:Hq.
    + split; [discriminate|]. intros H. inversion H; congruence.
    + destruct (Model.updateFirst q f c) as [[d' c']|].
      * split; [discriminate|]. intros H. inversion H; subst.
        apply IH in H3. discriminate.
      * split; [|reflexivity]. intros _. constructor; [assumption|].
        apply IH. reflexivity.
Qed.

(** A successful update rewrites the first matching document in place. *)
Lemma updateFirst_Some q f c d' c' :
  Model.updateFirst q f c = Some (d', c') ->
  exists pre d post,
    c = pre ++ d :: post /\ Forall (fun x => q x = false) pre /\ q d = true /\
    d' = f d /\ c' = pre ++ f d :: post.
Proof.
  revert d' c'. induction c as [|d c IH]; simpl; intros d' c' H; [discriminate|].
  destruct (q d) eqn:Hq.
  - inversion H; subst. exists [], d, c. repeat split; auto.
  - destruct (Model.updateFirst q f c) as [[d1 c1]|] eqn:E; [|discriminate].
    inversion H; subst. destruct (IH _ _ eq_refl) as (pre & x & post & -> & Hpre & Hx & -> & ->).
    exists (d :: pre), x, post. repeat split; auto.
Qed.

Lemma updateFirst_app_hit q f pre d post :
  Forall (fun x => q x = false) pre -> q d = true ->
  Model.updateFirst q f (pre ++ d :: post) = Some (f d, pre ++ f d :: post).
Proof.
  intros Hpre Hd. induction Hpre as [|x pre Hx Hpre IH]; simpl.
  - rewrite Hd. reflexivity.
  - rewrite Hx, IH. reflexivity.
Qed.

Lemma findOne_None q c :
  Model.findOne q c = None <-> Forall (fun d => q d = false) c.
Proof.
  induction c as [|d c IH]; simpl.
  - split; [constructor | reflexivity].
  - destruct (q d) eqn:Hq.
    + split; [discriminate|]. intros H. inversion H; congruence.
    + rewrite IH. split; [intros H; constructor; assumption | intros H; inversion H; assumption].
Qed.

Lemma findOne_Some q c d :
  Model.findOne q c = Some d ->
  exists pre post, c = pre ++ d :: post /\ Forall (fun x => q x = false) pre /\ q d = true.
Proof.
  induction c as [|x c IH]; simpl; [discriminate|].
  destruct (q x) eqn:Hx.
  - intros [= ->]. exists [], c. auto.
  - intros H. destruct (IH H) as (pre & post & -> & Hpre & Hd).
    exists (x :: pre), post. auto.
Qed.

Lemma findOne_app_hit q pre d post :
  Forall (fun x => q x = false) pre -> q d = true ->
  Model.findOne q (pre ++ d :: post) = Some d.
Proof.
  intros Hpre Hd. induction Hpre as [|x pre Hx Hpre IH]; simpl.
  - rewrite Hd. reflexivity.
  - rewrite Hx. exact IH.
Qed.

(** Without [upsert], an update that matches nothing changes nothing. *)
Lemma findOneAndUpdate_no_match q f c :
  Forall (fun d => q d = false) c ->
  Model.findOneAndUpdate q f None c = (None, c).
Proof.
  intros H. unfold Model.findOneAndUpdate.
  apply updateFirst_None with (f := f) in H. rewrite H. reflexivity.
Qed.

Lemma findOneAndUpdate_hit q f upsert c pre d post :
  c = pre ++ d :: post -> Forall (fun x => q x = false) pre -> q d = true ->
  Model.findOneAndUpdate q f upsert c = (Some (f d), pre ++ f d :: post).
Proof.
  intros -> Hpre Hd. unfold Model.findOneAndUpdate.
  rewrite (updateFirst_app_hit q f pre d post Hpre Hd). reflexivity.
Qed.

(** Without [upsert], the collection never grows. *)
Lemma findOneAndUpdate_length q f c :
  length (snd (Model.findOneAndUpdate q f None c)) = length c.
Proof.
  unfold Model.findOneAndUpdate.
  destruct (Model.updateFirst q f c) as [[d' c']|] eqn:E; simpl; [|reflexivity].
  apply updateFirst_Some in E as (pre & d & post & -> & _ & _ & _ & ->).
  rewrite !length_app. reflexivity.
Qed.

Lemma findOneAndUpdate_upsert_Some q f ins c :
  exists d', fst (Model.findOneAndUpdate q f (Some ins) c) = Some d'.
Proof.
  unfold Model.findOneAndUpdate.
  destruct (Model.updateFirst q f c) as [[d1 c1]|]; simpl; eauto.
Qed.

(** What [findOneAndUpdate] resolves to with [new: true] is what a query
    with the same filter finds afterwards, and it is either the update of a
    document that matched or the inserted document. *)
Lemma findOneAndUpdate_found q f upsert c d' :
  (forall d, q d = true -> q (f d) = true) ->
  (forall d, upsert = Some d -> q d = true) ->
  fst (Model.findOneAndUpdate q f upsert c) = Some d' ->
  Model.findOne q (snd (Model.findOneAndUpdate q f upsert c)) = Some d' /\
  ((exists d, Model.findOne q c = Some d /\ d' = f d) \/
   (Model.findOne q c = None /\ upsert = Some d')).
Proof.
  intros Hq Hu. unfold Model.findOneAndUpdate.
  destruct (Model.updateFirst q f c) as [[d1 c1]|] eqn:E; simpl.
  - intros [= ->]. apply updateFirst_Some in E as (pre & d & post & -> & Hpre & Hd & -> & ->).
    split; [apply findOne_app_hit; auto|]. left. exists d.
    split; [apply findOne_app_hit; auto | reflexivity].
  - apply updateFirst_None in E. destruct upsert as [d|]; simpl; [|discriminate].
    intros [= ->]. split.
    + replace (c ++ [d']) with (c ++ d' :: []) by reflexivity.
      apply findOne_app_hit; auto.
    + right. split; [apply findOne_None; exact E | reflexivity].
Qed.

(** An upsert by key keeps the keys of a collection distinct. *)
Lemma findOneAndUpdate_unique {K} (key : D -> K) q f upsert c :
  (forall d, q d = true -> key (f d) = key d) ->
  (forall ins, upsert = Some ins -> forall d, q d = false -> key d <> key ins) ->
  uniqueBy key c ->
  uniqueBy key (snd (Model.findOneAndUpdate q f upsert c)).
Proof.
  intros Hf Hu Hc. unfold Model.findOneAndUpdate, uniqueBy in *.
  destruct (Model.updateFirst q f c) as [[d' c']|] eqn:E; simpl.
  - apply updateFirst_Some in E as (pre & d & post & -> & _ & Hd & -> & ->).
    rewrite List.map_app in *. simpl in *. rewrite (Hf d Hd). exact Hc.
  - apply updateFirst_None in E. destruct upsert as [d|]; simpl; [|exact Hc].
    rewrite List.map_app. simpl. apply NoDup_app. split; [exact Hc|].
    split; [|apply NoDup_singleton].
    intros x Hx Hx'. apply list_elem_of_singleton in Hx'. subst x.
    apply list_elem_of_In, in_map_iff in Hx as (d0 & Hk & Hin).
    rewrite Forall_forall in E. apply list_elem_of_In in Hin.
    exact (Hu d eq_refl d0 (E d0 Hin) Hk).
Qed.

Lemma updateMany_unique `{EqDecision D} {K} (key : D -> K) q f c :
  (forall d, key (f d) = key d) ->
  uniqueBy key c -> uniqueBy key (snd (Model.updateMany q f c)).
Proof.
  intros Hf Hc. unfold uniqueBy in *. simpl. rewrite List.map_map.
  erewrite List.map_ext; [exact Hc|].
  intros d. simpl. destruct (q d); [apply Hf | reflexivity].
Qed.

Lemma filter_unique {K} (key : D -> K) (p : D -> bool) c :
  uniqueBy key c -> uniqueBy key (List.filter p c).
Proof.
  unfold uniqueBy. induction c as [|d c IH]; simpl; intros H; [exact H|].
  apply NoDup_cons in H as [Hd Hc]. destruct (p d); simpl.
  - apply NoDup_cons. split; [|auto].
    intros Hin. apply Hd. apply list_elem_of_In, in_map_iff in Hin as (x & Hx & Hin).
    apply List.filter_In in Hin as [Hin _].
    apply list_elem_of_In, in_map_iff. eauto.
  - auto.
Qed.

(** An update that writes a fixed point of itself and keeps its own filter
    satisfied gives the same collection when it is applied a second time. *)
Lemma findOneAndUpdate_twice q f upsert c :
  (forall d, q d = true -> q (f d) = true) ->
  (forall d, q d = true -> f (f d) = f d) ->
  (forall d, upsert = Some d -> q d = true /\ f d = d) ->
  snd (Model.findOneAndUpdate q f upsert (snd (Model.findOneAndUpdate q f upsert c)))
  = snd (Model.findOneAndUpdate q f upsert c).
Proof.
  intros Hq Hf Hu. unfold Model.findOneAndUpdate at 2 3.
  destruct (Model.updateFirst q f c) as [[d' c']|] eqn:E; simpl.
  - apply updateFirst_Some in E as (pre & d & post & -> & Hpre & Hd & -> & ->).
    unfold Model.findOneAndUpdate.
    rewrite (updateFirst_app_hit q f pre (f d) post Hpre (Hq d Hd)). simpl.
    rewrite (Hf d Hd). reflexivity.
  - apply updateFirst_None in E. destruct upsert as [d|]; simpl.
    + destruct (Hu d eq_refl) as [Hqd Hfd]. unfold Model.findOneAndUpdate.
      replace (c ++ [d]) with (c ++ d :: []) by reflexivity.
      rewrite (updateFirst_app_hit q f c d [] E Hqd). simpl. rewrite Hfd. reflexivity.
    + rewrite findOneAndUpdate_no_match by assumption. reflexivity.
Qed.

Lemma updateMany_twice `{EqDecision D} q f c :
  (forall d, q d = true -> q (f d) = true) ->
  (forall d, q d = true -> f (f d) = f d) ->
  snd (Model.updateMany q f (snd (Model.updateMany q f c))) = snd (Model.updateMany q f c).
Proof.
  intros Hq Hf. simpl. rewrite List.map_map. apply List.map_ext. intros d.
  destruct (q d) eqn:E; [rewrite (Hq d E), (Hf d E) | rewrite E]; reflexivity.
Qed.

Lemma deleteMany_twice q c :
  snd (Model.deleteMany q (snd (Model.deleteMany q c))) = snd (Model.deleteMany q c).
Proof.
  simpl. induction c as [|d c IH]; simpl; [reflexivity|].
  destruct (q d) eqn:E; simpl; [exact IH | rewrite E; simpl; f_equal; exact IH].
Qed.

(** A guarded status change on a collection with distinct keys leaves no
    document for the guard to match a second time. *)
Lemma findOneAndUpdate_guard_spent {K} (key : D -> K) (k : K) q f c :
  uniqueBy key c ->
  (forall d, q d = true -> key d = k) ->
  (forall d, q d = true -> key (f d) = key d /\ q (f d) = false) ->
  Model.findOneAndUpdate q f None (snd (Model.findOneAndUpdate q f None c))
  = (None, snd (Model.findOneAndUpdate q f None c)).
Proof.
  intros Hc Hk Hf. apply findOneAndUpdate_no_match.
  unfold Model.findOneAndUpdate.
  destruct (Model.updateFirst q f c) as [[d1 c1]|] eqn:E; simpl.
  - apply updateFirst_Some in E as (pre & d & post & -> & Hpre & Hd & -> & ->).
    apply Forall_app. split; [exact Hpre|]. constructor; [apply Hf; exact Hd|].
    apply Forall_forall. intros x Hx. destruct (q x) eqn:Hqx; [|reflexivity]. exfalso.
    unfold uniqueBy in Hc. rewrite List.map_app in Hc. simpl in Hc.
    apply NoDup_app in Hc as (_ & _ & Hc). apply NoDup_cons in Hc as [Hc _].
    apply Hc. rewrite (Hk d Hd), <- (Hk x Hqx).
    apply list_elem_of_In, in_map, list_elem_of_In. exact Hx.
  - apply updateFirst_None in E. exact E.
Qed.

End ModelFacts.

Lemma findOneAndUpdate_elem {D} (q : D -> bool) (f : D -> D) upsert (c : list D) d :
  d ∈ snd (Model.findOneAndUpdate q f upsert c) ->
  d ∈ c \/ (exists d0, d0 ∈ c /\ d = f d0) \/ upsert = Some d.
Proof.
  unfold Model.findOneAndUpdate.
  destruct (Model.updateFirst q f c) as [[d1 c1]|] eqn:E; simpl.
  - apply updateFirst_Some in E as (pre & d0 & post & -> & _ & _ & -> & ->).
    rewrite !elem_of_app, !elem_of_cons.
    intros [H|[->|H]]; [left; left; exact H | | left; right; right; exact H].
    right. left. exists d0. split; [|reflexivity].
    apply elem_of_app. right. apply elem_of_cons. left. reflexivity.
  - destruct upsert as [ins|]; simpl; [|left; assumption].
    rewrite elem_of_app, list_elem_of_singleton.
    intros [H| ->]; [left; exact H | right; right; reflexivity].
Qed.

Lemma filter_none {D} (q : D -> bool) (c : list D) :
  Forall (fun d => q d = false) c -> List.filter q c = [].
Proof.
  induction 1 as [|d c Hd _ IH]; simpl; [reflexivity|]. rewrite Hd. exact IH.
Qed.

(** After an upsert by key into a collection with distinct keys, the key
    selects the written document and nothing else. *)
Lemma upsert_selects {D K} `{EqDecision K} (key : D -> K) (k : K) q (ins : D) c :
  (forall d, q d = true <-> key d = k) ->
  key ins = k ->
  uniqueBy key c ->
  List.filter (fun d => bool_decide (key d = k))
              (snd (Model.findOneAndUpdate q (fun _ => ins) (Some ins) c)) = [ins].
Proof.
  intros Hq Hins Hc. unfold Model.findOneAndUpdate.
  set (p := fun d => bool_decide (key d = k)).
  assert (Hp : forall l, Forall (fun d => q d = false) l -> Forall (fun d => p d = false) l).
  { intros l Hl. eapply Forall_impl; [exact Hl|]. intros d Hd.
    apply bool_decide_eq_false. intros Hk. apply Hq in Hk. congruence. }
  assert (Hpi : p ins = true) by (apply bool_decide_eq_true; exact Hins).
  destruct (Model.updateFirst q (fun _ => ins) c) as [[d' c']|] eqn:E; simpl.
  - apply updateFirst_Some in E as (pre & d & post & -> & Hpre & Hd & _ & ->).
    rewrite List.filter_app. simpl. rewrite Hpi, (filter_none p pre (Hp _ Hpre)). simpl.
    f_equal. apply filter_none. apply Forall_forall. intros x Hx.
    apply bool_decide_eq_false. intros Hk.
    unfold uniqueBy in Hc. rewrite List.map_app in Hc. simpl in Hc.
    apply NoDup_app in Hc as (_ & _ & Hc). apply NoDup_cons in Hc as [Hc _].
    apply Hc. apply Hq in Hd.
    rewrite Hd, <- Hk. apply list_elem_of_In, in_map. apply list_elem_of_In. exact Hx.
  - apply updateFirst_None in E.
    rewrite List.filter_app, (filter_none p c (Hp _ E)). simpl. rewrite Hpi. reflexivity.
Qed.

Lemma alter_last {A} (f : A -> A) (l : list A) (x : A) :
  alter f (length l) (l ++ [x]) = l ++ [f x].
Proof. induction l as [|y l IH]; cbn; [reflexivity | f_equal; exact IH]. Qed.

Lemma revokeProfessional_fixed (d : User) :
  bool_decide (revokeProfessional d = d)
  = bool_decide (u_professionalStatus d = "revoked") && bool_decide (u_isVerified d = false).
Proof.
  destruct d as [a n r h rh ps v pk]. unfold revokeProfessional. simpl.
  destruct (bool_decide (ps = "revoked")) eqn:E1; destruct (bool_decide (v = false)) eqn:E2; simpl.
  - apply bool_decide_eq_true in E1, E2. subst. apply bool_decide_eq_true. reflexivity.
  - apply bool_decide_eq_false in E2. apply bool_decide_eq_false. intros [= ? ?]. congruence.
  - apply bool_decide_eq_false in E1. apply bool_decide_eq_false. intros [= ? ?]. congruence.
  - apply bool_decide_eq_false in E1. apply bool_decide_eq_false. intros [= ? ?]. congruence.
Qed.

Lemma bool_decide_false_neq {K} `{EqDecision K} (x y : K) :
  bool_decide (x = y) = false -> x <> y.
Proof. intros H. apply bool_decide_eq_false in H. exact H. Qed.

(** ** Reasoning about invocations *)

Section Preservation.
Context (I : Store -> Prop).

Lemma preserves_ret {A} (a : A) : preserves I (ret a).
Proof. intros w H. exact H. Qed.

Lemma preserves_bind {A B} (m : io A) (k : A -> io B) :
  preserves I m -> (forall a, preserves I (k a)) -> preserves I (bind m k).
Proof.
  intros Hm Hk w H. unfold bind. specialize (Hm w H).
  destruct (m w) as [a w'|e w']; simpl in *; [apply Hk; exact Hm | exact Hm].
Qed.

Lemma preserves_try_catch {A} (body : io A) (handler : string -> io A) :
  preserves I body -> (forall e, preserves I (handler e)) ->
  preserves I (try_catch body handler).
Proof.
  intros Hb Hh w H. unfold try_catch. specialize (Hb w H).
  destruct (body w) as [a w'|e w']; simpl in *; [exact Hb | apply Hh; exact Hb].
Qed.

Lemma preserves_logger l msg m : preserves I (logger l msg m).
Proof. intros w H. exact H. Qed.

Lemma preserves_settle : preserves I settle.
Proof.
  intros w H. unfold settle. destruct (faults w) as [|[e|] rest]; exact H.
Qed.

Lemma preserves_awaitStore {A} (op : Store -> A * Store) :
  (forall s, I s -> I (snd (op s))) -> preserves I (awaitStore op).
Proof.
  intros Hop. unfold awaitStore. apply preserves_bind; [apply preserves_settle|].
  intros _ w H. simpl. exact (Hop (db w) H).
Qed.

Lemma preserves_awaitUsers address : preserves I (awaitUsers address).
Proof.
  unfold awaitUsers. apply preserves_bind; [apply preserves_settle|].
  intros _ w H. exact H.
Qed.

Lemma preserves_awaitGetBlock event : preserves I (awaitGetBlock event).
Proof.
  unfold awaitGetBlock. apply preserves_bind; [apply preserves_settle|].
  intros _. apply preserves_ret.
Qed.

End Preservation.

(** Splits the proof that a handler keeps an invariant into one goal per
    store operation of the handler. *)
Ltac preserves_steps :=
  repeat first
    [ apply preserves_awaitStore
    | apply preserves_awaitUsers
    | apply preserves_awaitGetBlock
    | apply preserves_logger
    | apply preserves_ret
    | apply preserves_try_catch
    | apply preserves_bind
    | progress intros
    | match goal with
      | |- preserves _ (match ?x with _ => _ end) => destruct x
      | |- preserves _ (if ?x then _ else _) => destruct x
      end ].

Ltac unfold_handlers :=
  unfold deliver, handleRegistrationRequested, handleHospitalVerified,
    handleHospitalRevoked, handleRoleAssigned, handleRoleRevoked,
    handlePublicKeySaved, handleRecordAdded, handleProfessionalAccessRequested,
    handleAccessGranted, handleAccessRevoked.

(** The side conditions of the uniqueness lemmas, for the filters and
    updates the handlers use. *)
Ltac key_side_conditions :=
  match goal with
  | |- forall d, _ = true -> _ =>
      let H := fresh in
      intros ? H; simpl; try reflexivity;
      repeat (apply andb_true_iff in H as [H ?]);
      repeat match goal with
             | H' : bool_decide _ = true |- _ => apply bool_decide_eq_true in H'
             end;
      unfold grantKey; simpl; congruence
  | |- forall ins, None = Some ins -> _ => intros ? [=]
  | |- forall ins, Some _ = Some ins -> _ =>
      let H := fresh in
      intros ? [= <-] ? H; unfold grantKey; simpl;
      first [ apply bool_decide_eq_false in H; exact H
            | apply andb_false_iff in H as [H|H];
              apply bool_decide_eq_false in H; intros [= ? ?]; congruence ]
  | |- forall d, _ = _ => intros ?; reflexivity
  end.

(** The side conditions of [findOneAndUpdate_twice] for the handlers'
    filters and updates. *)
Ltac twice_side_conditions :=
  first
    [ apply findOneAndUpdate_twice;
      [ intros ? ?; cbn; assumption || (apply bool_decide_eq_true; reflexivity)
                         || (rewrite andb_true_iff, !bool_decide_eq_true; split; reflexivity)
      | intros ? ?; reflexivity
      | first [ intros ? [= <-]; split;
                [ first [ apply bool_decide_eq_true; reflexivity
                        | rewrite andb_true_iff, !bool_decide_eq_true; split; reflexivity ]
                | reflexivity ]
              | intros ? [=] ] ]
    | reflexivity ].

(** Runs a handler on a world without pending faults. *)
Ltac run_handler :=
  unfold_handlers;
  unfold exec, try_catch, awaitGetBlock, awaitUsers, awaitStore, bind, settle, logger, ret;
  cbn.

(** Consumes the fault plan of a world as far as a handler can look. *)
Ltac any_faults fl :=
  destruct fl as [|[?|] [|[?|] [|[?|] ?]]].

(** Decides which entry of a fault plan a handler stopped at. *)
Ltac which_fault Hfl :=
  let Hlen := fresh "Hlen" in
  pose proof (f_equal (@length _) Hfl) as Hlen;
  rewrite length_app, length_replicate in Hlen; cbn in Hlen;
  match type of Hfl with
  | _ = replicate ?k None ++ _ =>
      destruct k as [|[|[|k]]]; cbn in Hlen; try lia; cbn in Hfl;
      try discriminate Hfl
  end.

Ltac run_connect :=
  lazy beta iota zeta delta
    [exec fireTimer connectWebSocket retryConnect try_catch new_WebSocketProvider
     new_Contract provider_on contract_on removeAllListeners setTimeout onProviderError
     onNetwork bind settle logger ret finalWorld
     db logged httpContract_users faults providers contracts timers callback delay
     set_db set_logged set_faults set_providers set_contracts set_timers];
  rewrite ?alter_last.

(** ** Invariants of the handlers *)

(** Every handler keeps the keys of every collection distinct, whatever
    fails on the way. *)
Lemma deliver_keyed ev event : preserves keyed (deliver ev event).
Proof.
  destruct ev; unfold_handlers; preserves_steps; cbn [snd onRegistrationRequest onHospital onUser onRecord
    onAccessRequest onAccessGrant];
    match goal with H : keyed _ |- _ => destruct H as [K1 K2 K3 K4 K5 K6] end;
    constructor; simpl; try assumption;
    first [ apply findOneAndUpdate_unique | apply updateMany_unique | apply filter_unique ];
    try assumption; key_side_conditions.
Qed.

(** No handler ever leaves two grants for one (record, professional) pair. *)
Lemma deliver_unique_grants ev event :
  preserves (fun s => uniqueBy grantKey (accessGrants s)) (deliver ev event).
Proof.
  destruct ev; unfold_handlers; preserves_steps; cbn; try assumption;
    first [ apply findOneAndUpdate_unique | apply filter_unique ];
    try assumption; key_side_conditions.
Qed.

(** ** The connection manager *)

(** An attempt whose provider construction throws: the failure is logged
    and one retry is scheduled, five seconds out. *)
Lemma connectWebSocket_construction_throws config e rest s lg ch pr co ti :
  connectWebSocket config (mkWorld s lg ch (Some e :: rest) pr co ti)
  = Normal tt (mkWorld s
      (lg ++ [mkLogEntry Info [Lit "Connecting to WebSocket at ";
                               Str (polygonAmoyWssUrl config); Lit "..."] None;
              mkLogEntry Error [Lit "Failed to initialize WebSocket provider: "; Str e;
                                Lit ". Retrying in 5 seconds..."] None])
      ch rest pr co (ti ++ [mkTimer ConnectWebSocket 5000])).
Proof. run_connect. rewrite <- app_assoc. reflexivity. Qed.

(** An attempt in which nothing throws: a fresh provider with its two
    listeners, a fresh contract with the ten handlers attached, and no
    timer. *)
Lemma connectWebSocket_succeeds config s lg ch pr co ti :
  connectWebSocket config (mkWorld s lg ch [] pr co ti)
  = Normal tt (mkWorld s
      (lg ++ [mkLogEntry Info [Lit "Connecting to WebSocket at ";
                               Str (polygonAmoyWssUrl config); Lit "..."] None;
              mkLogEntry Info [Lit "WebSocket provider connected. Attaching contract event listeners..."] None;
              mkLogEntry Info [Lit "All contract event listeners attached."] None])
      ch [] (pr ++ [["network"; "error"]]) (co ++ [allListeners]) ti).
Proof. run_connect. rewrite <- !app_assoc. reflexivity. Qed.

Lemma iter_fireTimer_failing config n : forall e s lg ch pr co,
  exists lg',
    Nat.iter n (exec (fireTimer config))
      (mkWorld s lg ch (replicate n (Some e)) pr co [mkTimer ConnectWebSocket 5000])
    = mkWorld s lg' ch [] pr co [mkTimer ConnectWebSocket 5000].
Proof.
  induction n as [|n IH]; intros e s lg ch pr co.
  - exists lg. reflexivity.
  - rewrite Nat.iter_succ_r.
    assert (Hstep : exists lg1,
      exec (fireTimer config)
        (mkWorld s lg ch (replicate (S n) (Some e)) pr co [mkTimer ConnectWebSocket 5000])
      = mkWorld s lg1 ch (replicate n (Some e)) pr co [mkTimer ConnectWebSocket 5000]).
    { eexists. unfold exec, fireTimer, set_timers. cbn [timers callback db logged
        httpContract_users faults providers contracts replicate].
      rewrite connectWebSocket_construction_throws. reflexivity. }
    destruct Hstep as [lg1 ->]. apply IH.
Qed.

(** C1 (as the code has it). A failure while [connectWebSocket] builds
    the subscription, at whichever of its fourteen calls, is logged and puts
    one five-second timer for [connectWebSocket] in place, with the
    listeners of a half-built contract removed; an attempt in which nothing
    throws attaches the two provider listeners and all ten contract
    listeners to fresh objects and schedules nothing; however many attempts
    fail in a row, a retry stays pending and the first attempt that succeeds
    attaches the ten listeners; the provider's error listener, in contrast,
    only writes a log line. *)
Theorem C1_construction_failure_retries :
  forall (config : Config),
    (forall w k e rest,
       (k < 14)%nat ->
       faults w = replicate k None ++ Some e :: rest ->
       exists w',
         connectWebSocket config w = Normal tt w' /\
         timers w' = timers w ++ [mkTimer ConnectWebSocket 5000] /\
         faults w' = rest /\
         (exists before,
            logged w' = before ++
              [mkLogEntry Error [Lit "Failed to initialize WebSocket provider: "; Str e;
                                 Lit ". Retrying in 5 seconds..."] None]) /\
         (contracts w' = contracts w \/ contracts w' = contracts w ++ [[]]) /\
         db w' = db w) /\
    (forall w,
       faults w = [] ->
       exists w',
         connectWebSocket config w = Normal tt w' /\
         providers w' = providers w ++ [["network"; "error"]] /\
         contracts w' = contracts w ++ [allListeners] /\
         timers w' = timers w /\
         db w' = db w) /\
    (forall n e w,
       faults w = replicate (S n) (Some e) ->
       timers w = [] ->
       let failed := Nat.iter n (exec (fireTimer config)) (exec (connectWebSocket config) w) in
       timers failed = [mkTimer ConnectWebSocket 5000] /\
       contracts failed = contracts w /\
       contracts (exec (fireTimer config) failed) = contracts w ++ [allListeners] /\
       timers (exec (fireTimer config) failed) = []) /\
    (forall message w,
       onProviderError message w
       = Normal tt (set_logged
           (logged w ++ [mkLogEntry Error [Lit "WebSocket Provider Error: "; Str message]
                                    (Some (ErrorObject message))]) w)).
Proof.
  intros config. split; [|split; [|split]].
  - intros [s lg ch fl pr co ti] k e rest Hk Hfl. cbn in Hfl. subst fl.
    do 14 (destruct k as [|k];
           [ cbn [replicate app]; eexists; split; [run_connect; reflexivity|];
             cbn [timers faults logged contracts db];
             repeat split; try reflexivity;
             [ eexists; rewrite ?app_assoc; reflexivity
             | first [ left; reflexivity | right; reflexivity ] ]
           | ]).
    lia.
  - intros [s lg ch fl pr co ti] Hfl. cbn in Hfl. subst fl.
    rewrite connectWebSocket_succeeds. eexists. split; [reflexivity|].
    repeat split; reflexivity.
  - intros n e [s lg ch fl pr co ti] Hfl Hti failed. cbn in Hfl, Hti. subst fl ti.
    assert (Hfailed : exists lg',
              failed = mkWorld s lg' ch [] pr co [mkTimer ConnectWebSocket 5000]).
    { subst failed. cbn [replicate]. unfold exec at 2.
      rewrite connectWebSocket_construction_throws. cbn [finalWorld app].
      apply iter_fireTimer_failing. }
    destruct Hfailed as [lg' ->]. cbn [timers contracts].
    unfold exec, fireTimer, set_timers. cbn [timers callback db logged httpContract_users
      faults providers contracts].
    rewrite connectWebSocket_succeeds. repeat split; reflexivity.
  - intros message w. reflexivity.
Qed.

Lemma C1_construction_failure_retries_witness :
  let config := mkConfig "ws//malformed" "0xC0" in
  let w := mkWorld emptyStore [] (fun _ => mkOnChainUser "")
                   [Some "invalid URL"; Some "invalid URL"; Some "invalid URL"] [] [] [] in
  let failed := Nat.iter 2 (exec (fireTimer config)) (exec (connectWebSocket config) w) in
  (faults w = replicate 3 (Some "invalid URL") /\ timers w = []) /\
  timers failed = [mkTimer ConnectWebSocket 5000] /\
  contracts failed = contracts w /\
  contracts (exec (fireTimer config) failed) = contracts w ++ [allListeners] /\
  timers (exec (fireTimer config) failed) = [].
Proof.
  intros config w failed. split; [split; reflexivity|].
  exact (proj1 (proj2 (proj2 (C1_construction_failure_retries config)))
           2%nat "invalid URL" w eq_refl eq_refl).
Defined.

(** C1 (as the specification states it, refuted). A runtime provider error
    does not enter the retry loop: after the provider's error listener has
    run on a subscribed indexer, no retry is pending and the contracts and
    their listeners are as before. *)
Lemma C1_provider_error_schedules_no_retry :
  let config := mkConfig "wss://rpc.example/ws" "0xC0" in
  let subscribed := exec (connectWebSocket config) (quietWorld emptyStore) in
  let after := exec (onProviderError "connection lost") subscribed in
  ~ retryPending after /\
  timers after = [] /\
  contracts after = contracts subscribed /\
  providers after = providers subscribed.
Proof.
  vm_compute. repeat split. intros H. inversion H.
Qed.

(** ** Hospital verification *)

(** C2. [HospitalVerified(h, admin)] without a verifying request for [h]
    leaves the whole store as it was, whatever fails, and, when nothing
    fails, logs the event line and one warning carrying, as [tx], what
    [event.transactionHash] holds; with such a request, the first one is set
    to approved, and
    afterwards the hospital found under [h] is verified and active with the
    request's hospital name, and the user found under the lower-cased admin
    address is a verified [HospitalAdmin] of hospital [h]. *)
Theorem C2_hospital_verified :
  forall (h : Z) (admin : string) (event : EventPayload) (w : World),
    let verifying := fun d => bool_decide (rr_requestId d = JS.Number h)
                              && bool_decide (rr_status d = "verifying") in
    let w' := exec (handleHospitalVerified h admin event) w in
    (Model.findOne verifying (registrationRequests (db w)) = None ->
       db w' = db w /\
       (faults w = [] ->
        logged w' = logged w ++
          [ mkLogEntry Info [Lit "[Event] HospitalVerified: ID "; Num (JS.Number h);
                             Lit " for admin "; Str admin; Lit "."] None;
            mkLogEntry Warn [Lit "[Indexer] Did not find a VERIFYING request for ID ";
                             Num (JS.Number h); Lit "."]
                       (Some (Tx (transactionHash event))) ])) /\
    (forall r, faults w = [] ->
       Model.findOne verifying (registrationRequests (db w)) = Some r ->
       (exists pre post,
          registrationRequests (db w) = pre ++ r :: post /\
          registrationRequests (db w')
          = pre ++ mkRegistrationRequest (rr_requestId r) (rr_hospitalName r)
                     (rr_requesterAddress r) "approved" :: post) /\
       Model.findOne (fun d => bool_decide (h_hospitalId d = JS.Number h)) (hospitals (db w'))
       = Some (mkHospital (JS.Number h) (rr_hospitalName r) admin true "active") /\
       (exists u,
          Model.findOne (fun d => bool_decide (u_address d = JS.toLowerCase admin))
                        (users (db w')) = Some u /\
          u_address u = JS.toLowerCase admin /\
          u_name u = "Admin for " +:+ rr_hospitalName r /\
          u_role u = "HospitalAdmin" /\
          u_professionalStatus u = "approved" /\
          u_isVerified u = true /\
          u_hospitalId u = Some (JS.Number h)) /\
       records (db w') = records (db w) /\
       accessRequests (db w') = accessRequests (db w) /\
       accessGrants (db w') = accessGrants (db w)).
Proof.
  intros h admin event w verifying w'. subst w'.
  destruct w as [[rqs hs us rs ars gs] lg ch fl pr co ti]. cbn [db faults logged].
  cbn [registrationRequests hospitals users records accessRequests accessGrants].
  split.
  - intros Hnone. apply findOne_None in Hnone.
    pose proof (findOneAndUpdate_no_match verifying
                  (fun d => mkRegistrationRequest (rr_requestId d) (rr_hospitalName d)
                              (rr_requesterAddress d) "approved") _ Hnone) as Hno.
    destruct fl as [|[e|] rest]; run_handler; fold verifying; rewrite ?Hno; cbn;
      (split; [reflexivity | intros; try discriminate; rewrite <- ?app_assoc; reflexivity]).
  - intros r -> Hr. apply findOne_Some in Hr as (pre & post & -> & Hpre & Hr).
    pose proof (findOneAndUpdate_hit verifying
                  (fun d => mkRegistrationRequest (rr_requestId d) (rr_hospitalName d)
                              (rr_requesterAddress d) "approved") None _ pre r post
                  eq_refl Hpre Hr) as Hhit.
    run_handler. fold verifying. rewrite !Hhit. cbn.
    split; [exists pre, post; split; reflexivity|].
    split; [|split; [|repeat split]].
    + match goal with
      | |- Model.findOne ?q (snd (Model.findOneAndUpdate ?q ?f (Some ?ins) ?c)) = _ =>
          destruct (findOneAndUpdate_upsert_Some q f ins c) as [d' Hd'];
          destruct (findOneAndUpdate_found q f (Some ins) c d') as [Hfound Hwhich];
          [ intros; apply bool_decide_eq_true; reflexivity
          | intros ? [= <-]; apply bool_decide_eq_true; reflexivity
          | exact Hd' | ]
      end.
      rewrite Hfound. destruct Hwhich as [(d & _ & ->) | (_ & [= <-])]; reflexivity.
    + match goal with
      | |- exists u, Model.findOne ?q (snd (Model.findOneAndUpdate ?q ?f (Some ?ins) ?c)) = _ /\ _ =>
          destruct (findOneAndUpdate_upsert_Some q f ins c) as [d' Hd'];
          destruct (findOneAndUpdate_found q f (Some ins) c d') as [Hfound Hwhich];
          [ intros; apply bool_decide_eq_true; reflexivity
          | intros ? [= <-]; apply bool_decide_eq_true; reflexivity
          | exact Hd' | ]
      end.
      exists d'. split; [exact Hfound|].
      destruct Hwhich as [(d & _ & ->) | (_ & [= <-])]; repeat split; reflexivity.
Qed.

Lemma C2_hospital_verified_witness :
  let r := mkRegistrationRequest 7 "Acme Clinic" "0xAAA" "verifying" in
  let w := quietWorld (mkStore [r] [] [] [] [] []) in
  let event := ContractEventPayload (mkLog "0xt7") None in
  (faults w = [] /\
   Model.findOne (fun d => bool_decide (rr_requestId d = JS.Number 7)
                           && bool_decide (rr_status d = "verifying"))
                 (registrationRequests (db w)) = Some r) /\
  Model.findOne (fun d => bool_decide (h_hospitalId d = JS.Number 7))
                (hospitals (db (exec (handleHospitalVerified 7 "0xBBB" event) w)))
  = Some (mkHospital 7 "Acme Clinic" "0xBBB" true "active").
Proof.
  intros r w event. split; [split; reflexivity|].
  destruct (C2_hospital_verified 7 "0xBBB" event w) as [_ H].
  destruct (H r eq_refl eq_refl) as (_ & Hh & _). exact Hh.
Defined.

(** ** Access grants *)

(** A grant handled without faults and with its block resolved is the
    upsert of its document. *)
Lemma handleAccessGranted_run r owner g e k event b w :
  faults w = [] -> getBlock event = Some b ->
  let w' := exec (handleAccessGranted r owner g e k event) w in
  faults w' = [] /\
  accessGrants (db w') =
    snd (Model.findOneAndUpdate
           (fun d => bool_decide (g_recordId d = JS.Number r)
                     && bool_decide (g_professionalAddress d = JS.toLowerCase g))
           (fun _ => grantDocument (JS.Number r) owner g e k
                       (JS.new_Date (JS.mul (timestamp b) 1000)))
           (Some (grantDocument (JS.Number r) owner g e k
                       (JS.new_Date (JS.mul (timestamp b) 1000))))
           (accessGrants (db w))).
Proof.
  intros Hf Hb. destruct w as [s lg ch fl pr co ti]. cbn in Hf. subst fl.
  run_handler. rewrite Hb. cbn.
  split; reflexivity.
Qed.

(** C3. A grant for a (record, professional) pair that already has one
    overwrites it: after [AccessGranted(r, owner, g, e1, k1)] followed by
    [AccessGranted(r, owner, g, e2, k2)], the second handled with its block
    resolved, the documents keyed by [(r, g)] are exactly one, carrying
    [e2] and [k2]; and no handler, whatever fails, ever leaves two grants
    with the same key. *)
Theorem C3_access_grant_overwrites :
  forall (r e1 e2 : Z) (owner g k1 k2 : string) (event1 event2 : EventPayload)
         (b2 : Block) (w : World),
    uniqueBy grantKey (accessGrants (db w)) ->
    faults w = [] ->
    getBlock event2 = Some b2 ->
    let w1 := exec (handleAccessGranted r owner g e1 k1 event1) w in
    let w2 := exec (handleAccessGranted r owner g e2 k2 event2) w1 in
    List.filter (fun d => bool_decide (grantKey d = (JS.Number r, JS.toLowerCase g)))
                (accessGrants (db w2))
    = [ {| g_recordId := JS.Number r;
           g_patientAddress := JS.toLowerCase owner;
           g_professionalAddress := JS.toLowerCase g;
           g_expirationTimestamp := JS.new_Date (JS.mul (JS.Number e2) 1000);
           g_rewrappedKey := k2;
           g_createdAt := JS.new_Date (JS.mul (timestamp b2) 1000) |} ]
    /\ uniqueBy grantKey (accessGrants (db w2))
    /\ (forall ev event w0,
          uniqueBy grantKey (accessGrants (db w0)) ->
          uniqueBy grantKey (accessGrants (db (exec (deliver ev event) w0)))).
Proof.
  intros r e1 e2 owner g k1 k2 event1 event2 b2 w Hu Hf Hb w1 w2.
  assert (Hu1 : uniqueBy grantKey (accessGrants (db w1))).
  { exact (deliver_unique_grants (AccessGranted r owner g e1 k1) event1 w Hu). }
  assert (Hf1 : faults w1 = []).
  { subst w1. destruct w as [s lg ch fl pr co ti]. cbn in Hf. subst fl.
    run_handler. destruct (getBlock event1); reflexivity. }
  destruct (handleAccessGranted_run r owner g e2 k2 event2 b2 w1 Hf1 Hb) as [_ Hdb].
  fold w2 in Hdb. split; [|split].
  - rewrite Hdb. apply upsert_selects; [|reflexivity|exact Hu1].
    intros d. unfold grantKey. rewrite andb_true_iff, !bool_decide_eq_true.
    split; [intros [-> ->]; reflexivity | intros [= -> ->]; split; reflexivity].
  - exact (deliver_unique_grants (AccessGranted r owner g e2 k2) event2 w1 Hu1).
  - intros ev event w0. apply deliver_unique_grants.
Qed.

Lemma C3_access_grant_overwrites_witness :
  let old := mkAccessGrant 5 "0xaa" "0xbb" (JS.TimeValue 1) "k0" (JS.TimeValue 2) in
  let other := mkAccessGrant 6 "0xaa" "0xbb" (JS.TimeValue 1) "k0" (JS.TimeValue 2) in
  let w := quietWorld (mkStore [] [] [] [] [] [other; old]) in
  let event := ContractEventPayload (mkLog "0xt1") (Some (mkBlock 1700000000)) in
  (uniqueBy grantKey (accessGrants (db w)) /\ faults w = [] /\
   getBlock event = Some (mkBlock 1700000000)) /\
  List.filter (fun d => bool_decide (grantKey d = (JS.Number 5, JS.toLowerCase "0xBb")))
    (accessGrants (db (exec (handleAccessGranted 5 "0xAA" "0xBb" 20 "k2" event)
                         (exec (handleAccessGranted 5 "0xAA" "0xBb" 10 "k1" event) w))))
  = [ mkAccessGrant 5 "0xaa" "0xbb" (JS.TimeValue 20000) "k2" (JS.TimeValue 1700000000000) ].
Proof.
  intros old other w event.
  assert (Hu : uniqueBy grantKey (accessGrants (db w))).
  { unfold uniqueBy. simpl. apply NoDup_cons. split.
    - intros H. apply list_elem_of_singleton in H. discriminate H.
    - apply NoDup_singleton. }
  split; [split; [exact Hu | split; reflexivity] |].
  exact (proj1 (C3_access_grant_overwrites 5 10 20 "0xAA" "0xBb" "k1" "k2" event event
                  (mkBlock 1700000000) w Hu eq_refl eq_refl)).
Defined.

(** ** Hospital revocation *)

(** C4. [HospitalRevoked(h)], handled without a failing operation: every
    user of hospital [h] is rewritten to revoked and unverified and no other
    user is touched; the cascade line is logged exactly when the number of
    users of [h] that were not yet revoked and unverified is positive, and
    reports that number; and the first hospital document for [h] in status
    revoking becomes revoked and unverified. *)
Theorem C4_hospital_revoked :
  forall (h : Z) (event : EventPayload) (w : World),
    faults w = [] ->
    let n := JS.Number h in
    let ofHospital := fun u => bool_decide (u_hospitalId u = Some n) in
    let revoking := fun d => bool_decide (h_hospitalId d = n)
                             && bool_decide (h_status d = "revoking") in
    let w' := exec (handleHospitalRevoked h event) w in
    users (db w') = List.map (fun u => if ofHospital u then revokeProfessional u else u)
                             (users (db w)) /\
    (forall u, u ∈ users (db w') -> u_hospitalId u = Some n ->
               u_professionalStatus u = "revoked" /\ u_isVerified u = false) /\
    (let modified := length (List.filter
                       (fun u => ofHospital u
                                 && negb (bool_decide (u_professionalStatus u = "revoked")
                                          && bool_decide (u_isVerified u = false)))
                       (users (db w))) in
     logged w' = logged w
       ++ [mkLogEntry Info [Lit "[Event] HospitalRevoked: ID "; Num n; Lit "."] None]
       ++ (if (0 <? modified)%nat
           then [mkLogEntry Info [Lit "[Cascading Revoke] Revoked "; Num (Z.of_nat modified);
                                  Lit " professionals for Hospital ID "; Num n; Lit "."] None]
           else [])) /\
    (forall d, Model.findOne revoking (hospitals (db w)) = Some d ->
       exists pre post,
         hospitals (db w) = pre ++ d :: post /\
         hospitals (db w')
         = pre ++ mkHospital (h_hospitalId d) (h_name d) (h_adminAddress d) false "revoked"
                  :: post) /\
    (Model.findOne revoking (hospitals (db w)) = None -> hospitals (db w') = hospitals (db w)).
Proof.
  intros h event w Hf n ofHospital revoking w'. subst w' ofHospital revoking. cbv beta.
  destruct w as [[rqs hs us rs ars gs] lg ch fl pr co ti]. cbn in Hf. subst fl.
  cbn [db faults logged registrationRequests hospitals users records accessRequests accessGrants].
  assert (Hcount : length (List.filter
             (fun d => bool_decide (u_hospitalId d = Some n)
                       && negb (bool_decide (revokeProfessional d = d))) us)
           = length (List.filter
                       (fun u => bool_decide (u_hospitalId u = Some n)
                                 && negb (bool_decide (u_professionalStatus u = "revoked")
                                          && bool_decide (u_isVerified u = false))) us)).
  { f_equal. apply List.filter_ext. intros d. rewrite revokeProfessional_fixed. reflexivity. }
  assert (Husers : users (db (exec (handleHospitalRevoked h event)
              (mkWorld (mkStore rqs hs us rs ars gs) lg ch [] pr co ti)))
            = List.map (fun u => if bool_decide (u_hospitalId u = Some n)
                                 then revokeProfessional u else u) us).
  { run_handler. fold n. destruct (length _); reflexivity. }
  split; [exact Husers|]. split; [|split; [|split]].
  - rewrite Husers. intros u Hu Hh. apply list_elem_of_In, in_map_iff in Hu as (u0 & <- & _).
    destruct (bool_decide (u_hospitalId u0 = Some n)) eqn:E.
    + split; reflexivity.
    + apply bool_decide_eq_false in E. contradiction.
  - cbv zeta. rewrite <- Hcount. run_handler. fold n.
    destruct (length _); cbn; rewrite <- ?app_assoc; reflexivity.
  - intros d Hd. apply findOne_Some in Hd as (pre & post & -> & Hpre & Hd).
    exists pre, post. split; [reflexivity|].
    run_handler. fold n.
    rewrite (findOneAndUpdate_hit _ _ None _ pre d post eq_refl Hpre Hd).
    destruct (length _); reflexivity.
  - intros Hnone. apply findOne_None in Hnone.
    run_handler. fold n.
    rewrite (findOneAndUpdate_no_match _ _ _ Hnone).
    destruct (length _); reflexivity.
Qed.

Lemma C4_hospital_revoked_witness :
  let doctor := mkUser "0xd1" "Dana" "Doctor" (Some 3%Z) None "approved" true None in
  let gone := mkUser "0xd2" "Eli" "Doctor" (Some 3%Z) None "revoked" false None in
  let other := mkUser "0xd3" "Fay" "Doctor" (Some 4%Z) None "approved" true None in
  let w := quietWorld (mkStore [] [mkHospital 3 "Acme" "0xad" true "revoking"]
                               [doctor; gone; other] [] [] []) in
  faults w = [] /\
  users (db (exec (handleHospitalRevoked 3 (ContractEventPayload (mkLog "0xt3") None)) w))
  = [mkUser "0xd1" "Dana" "Doctor" (Some 3%Z) None "revoked" false None; gone; other].
Proof.
  intros doctor gone other w. split; [reflexivity|].
  exact (proj1 (C4_hospital_revoked 3 (ContractEventPayload (mkLog "0xt3") None) w eq_refl)).
Defined.

(** ** Access revocation *)

(** C5. [AccessRevoked(p, prof, recordIds)], handled without a failing
    operation, deletes exactly the grants of the lower-cased professional
    for the listed records: none of them remains, every other grant stays,
    in its place, and no other collection changes. *)
Theorem C5_access_revoked :
  forall (patient professional : string) (recordIds : list Z) (event : EventPayload)
         (w : World),
    faults w = [] ->
    let revoked := fun g => bool_decide (g_professionalAddress g = JS.toLowerCase professional)
                            && bool_decide (g_recordId g ∈ List.map JS.Number recordIds) in
    let w' := exec (handleAccessRevoked patient professional recordIds event) w in
    (forall g, g ∈ accessGrants (db w') ->
       ~ (g_professionalAddress g = JS.toLowerCase professional /\
          g_recordId g ∈ List.map JS.Number recordIds)) /\
    (forall g, g ∈ accessGrants (db w) ->
       g_professionalAddress g <> JS.toLowerCase professional \/
       g_recordId g ∉ List.map JS.Number recordIds ->
       g ∈ accessGrants (db w')) /\
    accessGrants (db w') = List.filter (fun g => negb (revoked g)) (accessGrants (db w)) /\
    registrationRequests (db w') = registrationRequests (db w) /\
    hospitals (db w') = hospitals (db w) /\
    users (db w') = users (db w) /\
    records (db w') = records (db w) /\
    accessRequests (db w') = accessRequests (db w).
Proof.
  intros patient professional recordIds event w Hf revoked w'. subst w'.
  destruct w as [[rqs hs us rs ars gs] lg ch fl pr co ti]. cbn in Hf. subst fl.
  subst revoked. run_handler. repeat split.
  - intros g Hg [H1 H2]. apply list_elem_of_In, List.filter_In in Hg as [_ Hg].
    rewrite (bool_decide_eq_true_2 _ H1), (bool_decide_eq_true_2 _ H2) in Hg. discriminate.
  - intros g Hg Hkeep. apply list_elem_of_In, List.filter_In.
    split; [apply list_elem_of_In; exact Hg|].
    apply negb_true_iff, andb_false_iff.
    destruct Hkeep as [H|H]; [left|right]; apply bool_decide_eq_false_2; exact H.
Qed.

Lemma C5_access_revoked_witness :
  let g1 := mkAccessGrant 1 "0xaa" "0xbb" (JS.TimeValue 9) "k" (JS.TimeValue 1) in
  let g2 := mkAccessGrant 2 "0xaa" "0xbb" (JS.TimeValue 9) "k" (JS.TimeValue 1) in
  let g3 := mkAccessGrant 3 "0xaa" "0xbb" (JS.TimeValue 9) "k" (JS.TimeValue 1) in
  let g4 := mkAccessGrant 1 "0xaa" "0xcc" (JS.TimeValue 9) "k" (JS.TimeValue 1) in
  let w := quietWorld (mkStore [] [] [] [] [] [g1; g2; g3; g4]) in
  faults w = [] /\
  accessGrants (db (exec (handleAccessRevoked "0xAA" "0xBB" [1%Z; 2%Z]
                            (ContractEventPayload (mkLog "0xt5") None)) w)) = [g3; g4].
Proof.
  intros g1 g2 g3 g4 w. split; [reflexivity|].
  pose proof (C5_access_revoked "0xAA" "0xBB" [1%Z; 2%Z] (ContractEventPayload (mkLog "0xt5") None) w eq_refl)
    as (_ & _ & H & _).
  rewrite H. vm_compute. reflexivity.
Defined.

(** ** Addresses as the handlers store them *)

(** C6 (the code at a failing input). [RegistrationRequested] stores the
    requester address as it arrives, and [HospitalVerified] stores the admin
    address on the hospital as it arrives, while lower-casing the same
    address for the user document: with checksummed (mixed-case) addresses
    the store holds both in mixed case. *)
Theorem C6_mixed_case_address_persisted :
  let event := ContractEventPayload (mkLog "0xt6") None in
  let w1 := exec (handleRegistrationRequested 7 "Acme Clinic" "0xAaA1" event)
                 (quietWorld emptyStore) in
  let verifying := quietWorld (mkStore [mkRegistrationRequest 7 "Acme Clinic" "0xAaA1" "verifying"]
                                       [] [] [] [] []) in
  let w2 := exec (handleHospitalVerified 7 "0xBbB2" event) verifying in
  registrationRequests (db w1)
  = [mkRegistrationRequest 7 "Acme Clinic" "0xAaA1" "pending_hospital"] /\
  hospitals (db w2) = [mkHospital 7 "Acme Clinic" "0xBbB2" true "active"] /\
  List.map u_address (users (db w2)) = ["0xbbb2"] /\
  JS.toLowerCase "0xAaA1" <> "0xAaA1" /\
  JS.toLowerCase "0xBbB2" <> "0xBbB2".
Proof.
  vm_compute. repeat split; discriminate.
Qed.

(** ** Idempotence *)

(** C7. Handling the same event a second time, on a store whose
    collections hold one document per business key and with no operation
    failing, gives the store the first handling gave, for each of the ten
    event types. *)
Theorem C7_handlers_idempotent :
  forall (ev : ChainEvent) (event : EventPayload) (w : World),
    keyed (db w) ->
    faults w = [] ->
    db (exec (deliver ev event) (exec (deliver ev event) w))
    = db (exec (deliver ev event) w).
Proof.
  intros ev event w Hk Hf.
  destruct w as [[rqs hs us rs ars gs] lg ch fl pr co ti]. cbn in Hf. subst fl.
  destruct Hk as [K1 K2 K3 K4 K5 K6]. cbn in K1, K2, K3, K4, K5, K6.
  destruct ev.
  - (* RegistrationRequested *)
    run_handler. f_equal. twice_side_conditions.
  - (* HospitalVerified *)
    pose (verifying := fun d => bool_decide (rr_requestId d = JS.Number hospitalId)
                                && bool_decide (rr_status d = "verifying")).
    pose (approve := fun d => mkRegistrationRequest (rr_requestId d) (rr_hospitalName d)
                                (rr_requesterAddress d) "approved").
    pose proof (findOneAndUpdate_guard_spent rr_requestId (JS.Number hospitalId)
                  verifying approve rqs K1) as Hspent.
    destruct (Model.findOne verifying rqs) as [r|] eqn:Er.
    + apply findOne_Some in Er as (pre & post & -> & Hpre & Hr).
      pose proof (findOneAndUpdate_hit verifying approve None _ pre r post eq_refl Hpre Hr)
        as Hhit.
      rewrite Hhit in Hspent. cbn in Hspent.
      run_handler. fold verifying. fold approve. rewrite !Hhit. cbn.
      fold verifying. fold approve. rewrite Hspent; [reflexivity | |].
      * intros d Hd. apply andb_true_iff in Hd as [Hd _].
        apply bool_decide_eq_true in Hd. exact Hd.
      * intros d Hd. split; [reflexivity|]. unfold verifying, approve. cbn.
        apply andb_false_iff. right. apply bool_decide_eq_false. discriminate.
    + apply findOne_None in Er.
      pose proof (findOneAndUpdate_no_match verifying approve _ Er) as Hno.
      run_handler. fold verifying. fold approve. rewrite !Hno. cbn.
      fold verifying. fold approve. rewrite !Hno. reflexivity.
  - (* HospitalRevoked *)
    pose (revoking := fun d => bool_decide (h_hospitalId d = JS.Number hospitalId)
                               && bool_decide (h_status d = "revoking")).
    pose (revoke := fun d => mkHospital (h_hospitalId d) (h_name d) (h_adminAddress d)
                               false "revoked").
    pose proof (findOneAndUpdate_guard_spent h_hospitalId (JS.Number hospitalId)
                  revoking revoke hs K2) as Hspent.
    run_handler. fold revoking. fold revoke.
    repeat (match goal with |- context [match length ?l with _ => _ end] =>
              destruct (length l) end; cbn).
    all: f_equal.
    all: try (rewrite Hspent; [reflexivity | |];
       [ intros d Hd; apply andb_true_iff in Hd as [Hd _];
         apply bool_decide_eq_true in Hd; exact Hd
       | intros d Hd; split; [reflexivity|]; unfold revoking, revoke; cbn;
         apply andb_false_iff; right; apply bool_decide_eq_false; discriminate ]).
    all: rewrite List.map_map; apply List.map_ext; intros d;
      destruct (bool_decide (u_hospitalId d = Some (JS.Number hospitalId))) eqn:Ed;
      cbn; rewrite Ed; reflexivity.
  - (* RoleAssigned *)
    run_handler. f_equal. twice_side_conditions.
  - (* RoleRevoked *)
    run_handler. f_equal. twice_side_conditions.
  - (* PublicKeySaved *)
    run_handler. destruct (JS.nonEmpty (publicKey (ch userAddress))) eqn:Epk; cbn;
      rewrite ?Epk; cbn; [f_equal; twice_side_conditions | reflexivity].
  - (* RecordAdded *)
    run_handler. f_equal. twice_side_conditions.
  - (* ProfessionalAccessRequested *)
    run_handler. f_equal. twice_side_conditions.
  - (* AccessGranted *)
    run_handler. destruct (getBlock event) as [b|]; cbn; [|reflexivity].
    f_equal. twice_side_conditions.
  - (* AccessRevoked *)
    run_handler. f_equal.
    exact (deleteMany_twice
             (fun d => bool_decide (g_professionalAddress d = JS.toLowerCase professional)
                       && bool_decide (g_recordId d ∈ List.map JS.Number recordIds)) gs).
Qed.

Lemma C7_handlers_idempotent_witness :
  let r := mkRegistrationRequest 7 "Acme Clinic" "0xAAA" "verifying" in
  let w := quietWorld (mkStore [r] [] [] [] [] []) in
  let event := ContractEventPayload (mkLog "0xt7") None in
  (keyed (db w) /\ faults w = []) /\
  db (exec (deliver (HospitalVerified 7 "0xBBB") event)
        (exec (deliver (HospitalVerified 7 "0xBBB") event) w))
  = db (exec (deliver (HospitalVerified 7 "0xBBB") event) w).
Proof.
  intros r w event.
  assert (Hk : keyed (db w)).
  { constructor; unfold uniqueBy; cbn; try apply NoDup_nil_2. apply NoDup_singleton. }
  split; [split; [exact Hk | reflexivity]|].
  exact (C7_handlers_idempotent (HospitalVerified 7 "0xBBB") event w Hk eq_refl).
Defined.

(** ** The failure boundary of a handler *)

(** Every handler invocation completes normally, whichever of its awaited
    operations reject; when one rejects with an error [e], the last thing
    the invocation does is log an error that carries [e.message] and, as
    [tx], what the member [event.transactionHash] holds; and the invocation
    schedules nothing (the event is not retried). *)
Lemma handler_failure_boundary :
  forall (ev : ChainEvent) (event : EventPayload) (w : World),
    exists w',
      deliver ev event w = Normal tt w' /\
      (forall k e,
         faults w = replicate k None ++ Some e :: faults w' ->
         exists before msg,
           logged w' = before ++ [mkLogEntry Error msg (Some (Tx (transactionHash event)))] /\
           Str e ∈ msg) /\
      timers w' = timers w.
Proof.
  intros ev event w. destruct w as [[rqs hs us rs ars gs] lg ch fl pr co ti].
  destruct ev; any_faults fl; run_handler;
    repeat match goal with
      | |- context [match fst ?x with _ => _ end] => destruct (fst x); cbn
      | |- context [match getBlock ?x with _ => _ end] => destruct (getBlock x); cbn
      | |- context [if JS.nonEmpty ?x then _ else _] => destruct (JS.nonEmpty x); cbn
      | |- context [match length ?x with _ => _ end] => destruct (length x); cbn
      end;
    (eexists; split; [reflexivity|]; split; [|reflexivity]);
    cbn; intros k e Hfl; which_fault Hfl.
  all: injection Hfl as ->; do 2 eexists; split; [reflexivity|];
    apply list_elem_of_In; simpl; tauto.
Qed.

(** C8 (the code on the payloads it receives).  A handler invocation
    never throws or rejects and schedules nothing, whichever of its awaited
    operations reject; but the error it logs when one rejects does not
    carry the transaction of the event: the catch blocks read
    [event.transactionHash], a member the payload of a contract listener
    does not have, so every such entry has [tx] undefined, while the hash
    of the transaction sits in [event.log.transactionHash]. *)
Theorem C8_error_logged_without_transaction :
  forall (ev : ChainEvent) (log : Log) (block : option Block) (w : World),
    let event := ContractEventPayload log block in
    exists w',
      deliver ev event w = Normal tt w' /\
      timers w' = timers w /\
      (forall k e,
         faults w = replicate k None ++ Some e :: faults w' ->
         exists before msg,
           logged w' = before ++ [mkLogEntry Error msg (Some (Tx None))] /\
           Str e ∈ msg) /\
      (forall log', deliver ev (ContractEventPayload log' block) w = Normal tt w').
Proof.
  intros ev log block w event.
  destruct (handler_failure_boundary ev event w) as (w' & Hrun & Hlog & Htimers).
  exists w'. split; [exact Hrun|]. split; [exact Htimers|]. split; [exact Hlog|].
  intros log'. rewrite <- Hrun. destruct ev; reflexivity.
Qed.

Lemma C8_error_logged_without_transaction_witness :
  let r := mkRegistrationRequest 7 "Acme Clinic" "0xAAA" "verifying" in
  let w := mkWorld (mkStore [r] [] [] [] [] []) [] (fun _ => mkOnChainUser "")
                   [None; Some "write failed"] [] [] [] in
  let event := ContractEventPayload (mkLog "0xt8") None in
  log_transactionHash (log event) = "0xt8" /\
  exists w',
    deliver (HospitalVerified 7 "0xBBB") event w = Normal tt w' /\
    faults w = replicate 1 None ++ Some "write failed" :: faults w' /\
    db w' = mkStore [mkRegistrationRequest 7 "Acme Clinic" "0xAAA" "approved"] [] [] [] [] [] /\
    logged w'
    = [mkLogEntry Info [Lit "[Event] HospitalVerified: ID "; Num 7; Lit " for admin ";
                        Str "0xBBB"; Lit "."] None;
       mkLogEntry Error [Lit "Error processing HospitalVerified (ID: "; Num 7; Lit "): ";
                         Str "write failed"] (Some (Tx None))].
Proof.
  intros r w event. split; [reflexivity|].
  destruct (C8_error_logged_without_transaction (HospitalVerified 7 "0xBBB") (mkLog "0xt8")
              None w) as (w' & Hrun & _ & _ & _).
  exists w'. split; [exact Hrun|].
  vm_compute in Hrun. injection Hrun as <-. repeat split.
Defined.

(** ** Updates that create nothing *)

(** C9. [RoleAssigned], [RoleRevoked] and [PublicKeySaved] for an address
    that, lower-cased, is no user's address leave the whole store unchanged,
    whatever fails; and in every case the three handlers leave the number of
    user documents as it was. *)
Theorem C9_no_user_created :
  forall (userAddress : string) (role hospitalId : Z) (event : EventPayload) (w : World),
    (Forall (fun u => u_address u <> JS.toLowerCase userAddress) (users (db w)) ->
       db (exec (handleRoleAssigned userAddress role hospitalId event) w) = db w /\
       db (exec (handleRoleRevoked userAddress event) w) = db w /\
       db (exec (handlePublicKeySaved userAddress event) w) = db w) /\
    length (users (db (exec (handleRoleAssigned userAddress role hospitalId event) w)))
      = length (users (db w)) /\
    length (users (db (exec (handleRoleRevoked userAddress event) w)))
      = length (users (db w)) /\
    length (users (db (exec (handlePublicKeySaved userAddress event) w)))
      = length (users (db w)).
Proof.
  intros userAddress role hospitalId event w.
  destruct w as [[rqs hs us rs ars gs] lg ch fl pr co ti].
  cbn [db users]. split.
  - intros Hnone.
    assert (Hq : Forall (fun d => bool_decide (u_address d = JS.toLowerCase userAddress) = false) us).
    { eapply Forall_impl; [exact Hnone|]. intros d Hd. apply bool_decide_eq_false. exact Hd. }
    repeat split; any_faults fl; run_handler;
      try destruct (JS.nonEmpty _); cbn;
      rewrite ?(findOneAndUpdate_no_match _ _ _ Hq); reflexivity.
  - repeat split; any_faults fl; run_handler;
      try destruct (JS.nonEmpty _); cbn;
      rewrite ?findOneAndUpdate_length; reflexivity.
Qed.

Lemma C9_no_user_created_witness :
  let u := mkUser "0xd1" "Dana" "Patient" None None "none" false None in
  let w := quietWorld (mkStore [] [] [u] [] [] []) in
  Forall (fun u => u_address u <> JS.toLowerCase "0xD2") (users (db w)) /\
  db (exec (handleRoleAssigned "0xD2" 1 3 (ContractEventPayload (mkLog "0xt9") None)) w) = db w.
Proof.
  intros u w.
  assert (H : Forall (fun u => u_address u <> JS.toLowerCase "0xD2") (users (db w))).
  { repeat constructor. discriminate. }
  split; [exact H|].
  exact (proj1 (proj1 (C9_no_user_created "0xD2" 1 3 (ContractEventPayload (mkLog "0xt9") None) w) H)).
Defined.

(** ** Grants and their block *)

(** C10. [AccessGranted] whose block lookup resolves to [null] leaves the
    whole store unchanged, whatever else fails, and, when nothing fails,
    logs one warning with [event.transactionHash] interpolated; and every
    grant found in the
    store after the handler has run either was there before or carries, as
    [createdAt], the date of the timestamp of the event's block. *)
Theorem C10_access_granted_needs_block :
  forall (r : Z) (owner g : string) (e : Z) (k : string) (event : EventPayload) (w : World),
    let w' := exec (handleAccessGranted r owner g e k event) w in
    (getBlock event = None ->
       db w' = db w /\
       (faults w = [] ->
        logged w' = logged w ++
          [mkLogEntry Warn [Lit "Could not fetch block for event at hash: ";
                            Str (JS.ToString (transactionHash event))] None])) /\
    (forall d, d ∈ accessGrants (db w') ->
       d ∈ accessGrants (db w) \/
       exists b, getBlock event = Some b /\
                 g_createdAt d = JS.new_Date (JS.mul (timestamp b) 1000)).
Proof.
  intros r owner g e k event w w'. subst w'.
  destruct w as [[rqs hs us rs ars gs] lg ch fl pr co ti]. split.
  - intros Hb. any_faults fl; run_handler; rewrite ?Hb; cbn;
      (split; [reflexivity | intros; try discriminate; reflexivity]).
  - intros d. destruct (getBlock event) as [b|] eqn:Hb;
      any_faults fl; run_handler; rewrite ?Hb; cbn; intros Hd;
      try (left; exact Hd);
      (apply findOneAndUpdate_elem in Hd as [Hd|[(d0 & _ & ->)|[= <-]]];
       [left; exact Hd | right; exists b; split; reflexivity
       | right; exists b; split; reflexivity]).
Qed.

Lemma C10_access_granted_needs_block_witness :
  let g1 := mkAccessGrant 1 "0xaa" "0xbb" (JS.TimeValue 9) "k" (JS.TimeValue 1) in
  let w := quietWorld (mkStore [] [] [] [] [] [g1]) in
  let event := ContractEventPayload (mkLog "0xt10") None in
  getBlock event = None /\
  db (exec (handleAccessGranted 1 "0xAA" "0xBB" 20 "k2" event) w) = db w.
Proof.
  intros g1 w event. split; [reflexivity|].
  exact (proj1 (proj1 (C10_access_granted_needs_block 1 "0xAA" "0xBB" 20 "k2" event w) eq_refl)).
Defined.

(** ** More facts about the query operations *)

Section UpsertFacts.
Context {D : Type}.
Implicit Types (q : D -> bool) (f g : D -> D) (c : list D).

(** An upsert never shortens a collection and adds at most one document. *)
Lemma findOneAndUpdate_length_upsert q f upsert c :
  length (snd (Model.findOneAndUpdate q f upsert c))
  = (length c + match Model.findOne q c, upsert with
                | None, Some _ => 1
                | _, _ => 0
                end)%nat.
Proof.
  unfold Model.findOneAndUpdate.
  destruct (Model.updateFirst q f c) as [[d' c']|] eqn:E; simpl.
  - apply updateFirst_Some in E as (pre & d & post & -> & Hpre & Hd & _ & ->).
    rewrite (findOne_app_hit q pre d post Hpre Hd), !length_app. simpl. lia.
  - apply updateFirst_None in E. apply findOne_None in E. rewrite E.
    destruct upsert; simpl; rewrite ?length_app; simpl; lia.
Qed.

(** The documents the filter does not select are left alone, in order. *)
Lemma findOneAndUpdate_others q f upsert c :
  (forall d, q d = true -> q (f d) = true) ->
  (forall a, upsert = Some a -> q a = true) ->
  List.filter (fun d => negb (q d)) (snd (Model.findOneAndUpdate q f upsert c))
  = List.filter (fun d => negb (q d)) c.
Proof.
  intros Hf Hu. unfold Model.findOneAndUpdate.
  destruct (Model.updateFirst q f c) as [[d' c']|] eqn:E; simpl.
  - apply updateFirst_Some in E as (pre & d & post & -> & _ & Hd & _ & ->).
    rewrite !List.filter_app. simpl. rewrite Hd, (Hf d Hd). reflexivity.
  - destruct upsert as [a|]; simpl; [|reflexivity].
    rewrite List.filter_app. simpl. rewrite (Hu a eq_refl). simpl.
    apply app_nil_r.
Qed.

(** A second update under the same filter that does not depend on what the
    first one wrote gives what it gives when applied alone. *)
Lemma findOneAndUpdate_then q f g uf ug c :
  (forall d, q d = true -> q (f d) = true /\ g (f d) = g d) ->
  (forall a, uf = Some a -> q a = true /\ ug = Some (g a)) ->
  snd (Model.findOneAndUpdate q g ug (snd (Model.findOneAndUpdate q f uf c)))
  = snd (Model.findOneAndUpdate q g ug c).
Proof.
  intros Hf Hu. unfold Model.findOneAndUpdate at 2.
  destruct (Model.updateFirst q f c) as [[d' c']|] eqn:E; simpl.
  - apply updateFirst_Some in E as (pre & d & post & -> & Hpre & Hd & _ & ->).
    destruct (Hf d Hd) as [Hqf Hgf].
    rewrite (findOneAndUpdate_hit q g ug _ pre (f d) post eq_refl Hpre Hqf).
    rewrite (findOneAndUpdate_hit q g ug _ pre d post eq_refl Hpre Hd).
    simpl. rewrite Hgf. reflexivity.
  - apply updateFirst_None in E. destruct uf as [a|]; simpl.
    + destruct (Hu a eq_refl) as [Hqa ->].
      rewrite (findOneAndUpdate_hit q g (Some (g a)) (c ++ [a]) c a [] eq_refl E Hqa).
      unfold Model.findOneAndUpdate.
      apply updateFirst_None with (f := g) in E. rewrite E. reflexivity.
    + reflexivity.
Qed.

(** What an upsert that writes one fixed document leaves behind. *)
Lemma upsert_document q (ins : D) c :
  q ins = true ->
  let c' := snd (Model.findOneAndUpdate q (fun _ => ins) (Some ins) c) in
  Model.findOne q c' = Some ins /\
  length c' = (length c + match Model.findOne q c with Some _ => 0 | None => 1 end)%nat /\
  List.filter (fun d => negb (q d)) c' = List.filter (fun d => negb (q d)) c.
Proof.
  intros Hq c'. subst c'. split; [|split].
  - destruct (findOneAndUpdate_upsert_Some q (fun _ => ins) ins c) as [d' Hd'].
    destruct (findOneAndUpdate_found q (fun _ => ins) (Some ins) c d') as [Hfound Hwhich];
      [ intros; exact Hq | intros ? [= <-]; exact Hq | exact Hd' | ].
    rewrite Hfound. destruct Hwhich as [(d & _ & ->) | (_ & [= <-])]; reflexivity.
  - rewrite findOneAndUpdate_length_upsert. destruct (Model.findOne q c); reflexivity.
  - apply findOneAndUpdate_others; [intros; exact Hq | intros ? [= <-]; exact Hq].
Qed.

End UpsertFacts.

(** ** What the upserting handlers store *)

(** X1. [RegistrationRequested], handled without a failing operation:
    the request found afterwards under the event's id holds the event's
    name and requester address and has status [pending_hospital], whatever
    its status was; the collection grows by one exactly when no request had
    that id; requests with another id and the other collections are left as
    they were. *)
Theorem registration_requested_stored :
  forall (requestId : Z) (hospitalName requesterAddress : string) (event : EventPayload)
         (w : World),
    faults w = [] ->
    let byId := fun d => bool_decide (rr_requestId d = JS.Number requestId) in
    let w' := exec (handleRegistrationRequested requestId hospitalName requesterAddress event) w in
    Model.findOne byId (registrationRequests (db w'))
    = Some (mkRegistrationRequest (JS.Number requestId) hospitalName requesterAddress
                                  "pending_hospital") /\
    length (registrationRequests (db w'))
    = (length (registrationRequests (db w))
       + match Model.findOne byId (registrationRequests (db w)) with
         | Some _ => 0
         | None => 1
         end)%nat /\
    List.filter (fun d => negb (byId d)) (registrationRequests (db w'))
    = List.filter (fun d => negb (byId d)) (registrationRequests (db w)) /\
    hospitals (db w') = hospitals (db w) /\
    users (db w') = users (db w) /\
    records (db w') = records (db w) /\
    accessRequests (db w') = accessRequests (db w) /\
    accessGrants (db w') = accessGrants (db w).
Proof.
  intros requestId hospitalName requesterAddress event w Hf byId w'. subst w'.
  destruct w as [[rqs hs us rs ars gs] lg ch fl pr co ti]. cbn in Hf. subst fl.
  run_handler.
  destruct (upsert_document byId
              (mkRegistrationRequest (JS.Number requestId) hospitalName requesterAddress
                                     "pending_hospital") rqs) as (H1 & H2 & H3).
  { apply bool_decide_eq_true. reflexivity. }
  repeat split; assumption.
Qed.

Lemma registration_requested_stored_witness :
  let old := mkRegistrationRequest 7 "Acme" "0xaaa" "approved" in
  let w := quietWorld (mkStore [old] [] [] [] [] []) in
  faults w = [] /\
  Model.findOne (fun d => bool_decide (rr_requestId d = JS.Number 7))
    (registrationRequests
       (db (exec (handleRegistrationRequested 7 "Acme Clinic" "0xAAA"
                    (ContractEventPayload (mkLog "0xt") None)) w)))
  = Some (mkRegistrationRequest 7 "Acme Clinic" "0xAAA" "pending_hospital").
Proof.
  intros old w. split; [reflexivity|].
  exact (proj1 (registration_requested_stored 7 "Acme Clinic" "0xAAA"
                  (ContractEventPayload (mkLog "0xt") None) w eq_refl)).
Defined.

(** ** Epoch seconds as dates *)

(** From 2^53 on, the Number nearest to an integer is itself at least 2^53
    in absolute value. *)
Lemma Number_large (n : Z) : (2 ^ 53 <= Z.abs n)%Z -> (2 ^ 53 <= Z.abs (JS.Number n))%Z.
Proof.
  intros H. unfold JS.Number.
  assert (Ha : (0 < Z.abs n)%Z) by lia.
  pose proof (Z.log2_spec _ Ha) as [Hlo _].
  assert (Hlog : (53 <= Z.log2 (Z.abs n))%Z).
  { apply Z.log2_le_pow2; [exact Ha | exact H]. }
  set (e := (Z.log2 (Z.abs n) - 52)%Z) in *.
  destruct (Z.leb_spec e 0); [lia|].
  rewrite Z.shiftr_div_pow2 by lia.
  assert (Hq : (2 ^ 52 <= Z.abs n / 2 ^ e)%Z).
  { apply Z.div_le_lower_bound; [apply Z.pow_pos_nonneg; lia|].
    rewrite <- Z.pow_add_r by lia. replace (e + 52)%Z with (Z.log2 (Z.abs n)) by lia.
    exact Hlo. }
  set (q := (Z.abs n / 2 ^ e)%Z) in *.
  match goal with
  | |- context [if ?b then (q + 1)%Z else q] => set (q' := if b then (q + 1)%Z else q)
  end.
  assert (Hq' : (2 ^ 52 <= q')%Z).
  { subst q'. match goal with |- context [if ?b then _ else _] => destruct b end; lia. }
  rewrite Z.shiftl_mul_pow2 by lia.
  assert (He : (2 <= 2 ^ e)%Z).
  { change 2%Z with (2 ^ 1)%Z at 1. apply Z.pow_le_mono_r; lia. }
  assert (Hs : Z.abs (Z.sgn n) = 1%Z) by (destruct n; simpl in *; lia).
  rewrite Z.abs_mul, Hs, Z.mul_1_l, Z.abs_mul, (Z.abs_eq q'), (Z.abs_eq (2 ^ e)) by lia.
  change (2 ^ 53)%Z with (2 ^ 52 * 2)%Z. apply Z.mul_le_mono_nonneg; lia.
Qed.

(** [new Date(t * 1000)] for an integer Number [t]: the date [t] seconds
    after the epoch, exactly, as long as that lies in the range of dates;
    an invalid date beyond it. *)
Lemma seconds_to_Date (t : Z) :
  JS.new_Date (JS.mul t 1000)
  = if (Z.abs t <=? 8640000000000)%Z then JS.TimeValue (t * 1000) else JS.InvalidDate.
Proof.
  unfold JS.mul, JS.new_Date.
  destruct (Z.leb_spec (Z.abs t) 8640000000000) as [Hin|Hout].
  - rewrite Number_exact by lia.
    destruct (Z.leb_spec (Z.abs (t * 1000)) 8640000000000000); [reflexivity | lia].
  - destruct (Z.lt_ge_cases (Z.abs (t * 1000)) (2 ^ 53)) as [Hs|Hl].
    + rewrite Number_exact by exact Hs.
      destruct (Z.leb_spec (Z.abs (t * 1000)) 8640000000000000); [lia | reflexivity].
    + apply Number_large in Hl.
      destruct (Z.leb_spec (Z.abs (JS.Number (t * 1000))) 8640000000000000);
        [lia | reflexivity].
Qed.

(** The same for a BigInt of seconds that is first narrowed by [Number]. *)
Lemma bigint_seconds_to_Date (t : Z) :
  JS.new_Date (JS.mul (JS.Number t) 1000)
  = if (Z.abs t <=? 8640000000000)%Z then JS.TimeValue (t * 1000) else JS.InvalidDate.
Proof.
  rewrite seconds_to_Date.
  destruct (Z.lt_ge_cases (Z.abs t) (2 ^ 53)) as [Hs|Hl].
  - rewrite Number_exact by exact Hs. reflexivity.
  - pose proof (Number_large _ Hl) as Hn.
    change (2 ^ 53)%Z with 9007199254740992%Z in Hl, Hn.
    destruct (Z.leb_spec (Z.abs (JS.Number t)) 8640000000000);
      destruct (Z.leb_spec (Z.abs t) 8640000000000); try lia; reflexivity.
Qed.

(** What an update without [upsert] does to a collection in which the
    filter finds a document. *)
Lemma update_document {D} (q : D -> bool) (f : D -> D) (c : list D) (d : D) :
  Model.findOne q c = Some d ->
  (forall x, q x = true -> q (f x) = true) ->
  let c' := snd (Model.findOneAndUpdate q f None c) in
  Model.findOne q c' = Some (f d) /\
  length c' = length c /\
  List.filter (fun x => negb (q x)) c' = List.filter (fun x => negb (q x)) c.
Proof.
  intros Hd Hq c'. subst c'. split; [|split].
  - apply findOne_Some in Hd as (pre & post & -> & Hpre & Hd).
    rewrite (findOneAndUpdate_hit q f None _ pre d post eq_refl Hpre Hd). simpl.
    apply findOne_app_hit; auto.
  - apply findOneAndUpdate_length.
  - apply findOneAndUpdate_others; [exact Hq | intros ? [=]].
Qed.

(** X2. [RecordAdded] with a timestamp within 8.64e12 seconds of the
    epoch (the range of a [Date]), handled without a failing operation: the
    record found afterwards under the event's id has the owner and the
    uploader lower-cased and, as its timestamp, the date that many seconds
    after the epoch; the collection grows by one exactly when no record had
    that id, and the records with another id are left as they were. *)
Theorem record_added_stored :
  forall (recordId : Z) (owner title ipfsHash category : string) (isVerified : bool)
         (verifiedBy : string) (timestamp : Z) (event : EventPayload) (w : World),
    faults w = [] ->
    (Z.abs timestamp <= 8640000000000)%Z ->
    let byId := fun d => bool_decide (r_recordId d = JS.Number recordId) in
    let w' := exec (handleRecordAdded recordId owner title ipfsHash category isVerified
                                      verifiedBy timestamp event) w in
    Model.findOne byId (records (db w'))
    = Some {| r_recordId := JS.Number recordId;
              r_owner := JS.toLowerCase owner;
              r_title := title;
              r_ipfsHash := ipfsHash;
              r_category := category;
              r_isVerified := isVerified;
              r_uploadedBy := JS.toLowerCase verifiedBy;
              r_timestamp := JS.TimeValue (timestamp * 1000) |} /\
    length (records (db w'))
    = (length (records (db w))
       + match Model.findOne byId (records (db w)) with Some _ => 0 | None => 1 end)%nat /\
    List.filter (fun d => negb (byId d)) (records (db w'))
    = List.filter (fun d => negb (byId d)) (records (db w)).
Proof.
  intros recordId owner title ipfsHash category isVerified verifiedBy timestamp event w Hf
         Hrange byId w'. subst w'.
  assert (Hdate : JS.new_Date (JS.mul (JS.Number timestamp) 1000)
                  = JS.TimeValue (timestamp * 1000)).
  { rewrite bigint_seconds_to_Date. apply Z.leb_le in Hrange. rewrite Hrange. reflexivity. }
  destruct w as [[rqs hs us rs ars gs] lg ch fl pr co ti]. cbn in Hf. subst fl.
  run_handler. rewrite <- Hdate.
  apply (upsert_document byId). apply bool_decide_eq_true. reflexivity.
Qed.

Lemma record_added_stored_witness :
  let w := quietWorld emptyStore in
  (faults w = [] /\ (Z.abs 1700000000 <= 8640000000000)%Z) /\
  Model.findOne (fun d => bool_decide (r_recordId d = JS.Number 3))
    (records (db (exec (handleRecordAdded 3 "0xAA" "X-ray" "bafy" "imaging" true "0xDD"
                          1700000000 (ContractEventPayload (mkLog "0xt") None)) w)))
  = Some (mkMedRecord 3 "0xaa" "X-ray" "bafy" "imaging" true "0xdd"
                      (JS.TimeValue 1700000000000)).
Proof.
  intros w.
  assert (Hrange : (Z.abs 1700000000 <= 8640000000000)%Z) by (simpl; lia).
  split; [split; [reflexivity | exact Hrange]|].
  exact (proj1 (record_added_stored 3 "0xAA" "X-ray" "bafy" "imaging" true "0xDD"
                  1700000000 (ContractEventPayload (mkLog "0xt") None) w eq_refl Hrange)).
Defined.

(** X3. [ProfessionalAccessRequested], handled without a failing
    operation: the request found afterwards under the event's id lists the
    record ids narrowed one by one, has both addresses lower-cased and has
    status [pending], whatever its status was; the collection grows by one
    exactly when no request had that id, and the requests with another id
    are left as they were. *)
Theorem access_requested_stored :
  forall (requestId : Z) (recordIds : list Z) (professional patient : string)
         (event : EventPayload) (w : World),
    faults w = [] ->
    let byId := fun d => bool_decide (ar_requestId d = JS.Number requestId) in
    let w' := exec (handleProfessionalAccessRequested requestId recordIds professional
                                                      patient event) w in
    Model.findOne byId (accessRequests (db w'))
    = Some {| ar_requestId := JS.Number requestId;
              ar_recordIds := List.map JS.Number recordIds;
              ar_professionalAddress := JS.toLowerCase professional;
              ar_patientAddress := JS.toLowerCase patient;
              ar_status := "pending" |} /\
    length (accessRequests (db w'))
    = (length (accessRequests (db w))
       + match Model.findOne byId (accessRequests (db w)) with Some _ => 0 | None => 1 end)%nat /\
    List.filter (fun d => negb (byId d)) (accessRequests (db w'))
    = List.filter (fun d => negb (byId d)) (accessRequests (db w)).
Proof.
  intros requestId recordIds professional patient event w Hf byId w'. subst w'.
  destruct w as [[rqs hs us rs ars gs] lg ch fl pr co ti]. cbn in Hf. subst fl.
  run_handler. apply (upsert_document byId). apply bool_decide_eq_true. reflexivity.
Qed.

Lemma access_requested_stored_witness :
  let old := mkAccessRequest 4 [1%Z] "0xbb" "0xaa" "approved" in
  let w := quietWorld (mkStore [] [] [] [] [old] []) in
  faults w = [] /\
  Model.findOne (fun d => bool_decide (ar_requestId d = JS.Number 4))
    (accessRequests (db (exec (handleProfessionalAccessRequested 4 [1%Z; 2%Z] "0xBB" "0xAA"
                                 (ContractEventPayload (mkLog "0xt") None)) w)))
  = Some (mkAccessRequest 4 [1%Z; 2%Z] "0xbb" "0xaa" "pending").
Proof.
  intros old w. split; [reflexivity|].
  exact (proj1 (access_requested_stored 4 [1%Z; 2%Z] "0xBB" "0xAA"
                  (ContractEventPayload (mkLog "0xt") None) w eq_refl)).
Defined.

(** ** Role and key updates of an existing user *)

(** X4. [RoleAssigned] for an address that, lower-cased, is a user's,
    handled without a failing operation: the user found afterwards has the
    role named by the code (1 is Doctor, 7 is LabTechnician, any other code
    is Unassigned Professional), the event's hospital, status approved and
    is verified, and keeps address, name, requested hospital and public
    key; no user is added and the other users are left as they were. *)
Theorem role_assigned_updates :
  forall (userAddress : string) (role hospitalId : Z) (event : EventPayload) (w : World)
         (u : User),
    faults w = [] ->
    let byAddress := fun d => bool_decide (u_address d = JS.toLowerCase userAddress) in
    Model.findOne byAddress (users (db w)) = Some u ->
    let w' := exec (handleRoleAssigned userAddress role hospitalId event) w in
    Model.findOne byAddress (users (db w'))
    = Some {| u_address := u_address u;
              u_name := u_name u;
              u_role := if (JS.Number role =? 1)%Z then "Doctor"
                        else if (JS.Number role =? 7)%Z then "LabTechnician"
                        else "Unassigned Professional";
              u_hospitalId := Some (JS.Number hospitalId);
              u_requestedHospitalId := u_requestedHospitalId u;
              u_professionalStatus := "approved";
              u_isVerified := true;
              u_publicKey := u_publicKey u |} /\
    length (users (db w')) = length (users (db w)) /\
    List.filter (fun d => negb (byAddress d)) (users (db w'))
    = List.filter (fun d => negb (byAddress d)) (users (db w)).
Proof.
  intros userAddress role hospitalId event w u Hf byAddress Hu w'. subst w'.
  destruct w as [[rqs hs us rs ars gs] lg ch fl pr co ti]. cbn in Hf, Hu. subst fl.
  run_handler.
  replace (if (JS.Number role =? 1)%Z then "Doctor"
           else if (JS.Number role =? 7)%Z then "LabTechnician"
           else "Unassigned Professional")
    with (default "Unassigned Professional" (roleEnumToString (JS.Number role)))
    by (unfold roleEnumToString; destruct (JS.Number role =? 1)%Z;
        [reflexivity | destruct (JS.Number role =? 7)%Z; reflexivity]).
  match goal with
  | |- context [Model.findOneAndUpdate _ ?f None us] =>
      exact (update_document byAddress f us u Hu (fun x Hx => Hx))
  end.
Qed.

Lemma role_assigned_updates_witness :
  let u := mkUser "0xd1" "Dana" "Patient" None (Some 3%Z) "pending" false (Some "pk") in
  let w := quietWorld (mkStore [] [] [u] [] [] []) in
  (faults w = [] /\
   Model.findOne (fun d => bool_decide (u_address d = JS.toLowerCase "0xD1")) (users (db w))
   = Some u) /\
  Model.findOne (fun d => bool_decide (u_address d = JS.toLowerCase "0xD1"))
    (users (db (exec (handleRoleAssigned "0xD1" 2 3 (ContractEventPayload (mkLog "0xt") None)) w)))
  = Some (mkUser "0xd1" "Dana" "Unassigned Professional" (Some 3%Z) (Some 3%Z) "approved" true
                 (Some "pk")).
Proof.
  intros u w. split; [split; reflexivity|].
  exact (proj1 (role_assigned_updates "0xD1" 2 3 (ContractEventPayload (mkLog "0xt") None) w u
                  eq_refl eq_refl)).
Defined.

(** X5. [RoleRevoked] for an address that, lower-cased, is a user's,
    handled without a failing operation: the user found afterwards is a
    revoked, unverified Patient without hospital and without requested
    hospital, and keeps address, name and public key; no user is added or
    removed and the other users are left as they were. *)
Theorem role_revoked_updates :
  forall (userAddress : string) (event : EventPayload) (w : World) (u : User),
    faults w = [] ->
    let byAddress := fun d => bool_decide (u_address d = JS.toLowerCase userAddress) in
    Model.findOne byAddress (users (db w)) = Some u ->
    let w' := exec (handleRoleRevoked userAddress event) w in
    Model.findOne byAddress (users (db w'))
    = Some {| u_address := u_address u;
              u_name := u_name u;
              u_role := "Patient";
              u_hospitalId := None;
              u_requestedHospitalId := None;
              u_professionalStatus := "revoked";
              u_isVerified := false;
              u_publicKey := u_publicKey u |} /\
    length (users (db w')) = length (users (db w)) /\
    List.filter (fun d => negb (byAddress d)) (users (db w'))
    = List.filter (fun d => negb (byAddress d)) (users (db w)).
Proof.
  intros userAddress event w u Hf byAddress Hu w'. subst w'.
  destruct w as [[rqs hs us rs ars gs] lg ch fl pr co ti]. cbn in Hf, Hu. subst fl.
  run_handler.
  match goal with
  | |- context [Model.findOneAndUpdate _ ?f None us] =>
      exact (update_document byAddress f us u Hu (fun x Hx => Hx))
  end.
Qed.

Lemma role_revoked_updates_witness :
  let u := mkUser "0xd1" "Dana" "Doctor" (Some 3%Z) (Some 3%Z) "approved" true (Some "pk") in
  let w := quietWorld (mkStore [] [] [u] [] [] []) in
  (faults w = [] /\
   Model.findOne (fun d => bool_decide (u_address d = JS.toLowerCase "0xD1")) (users (db w))
   = Some u) /\
  Model.findOne (fun d => bool_decide (u_address d = JS.toLowerCase "0xD1"))
    (users (db (exec (handleRoleRevoked "0xD1" (ContractEventPayload (mkLog "0xt") None)) w)))
  = Some (mkUser "0xd1" "Dana" "Patient" None None "revoked" false (Some "pk")).
Proof.
  intros u w. split; [split; reflexivity|].
  exact (proj1 (role_revoked_updates "0xD1" (ContractEventPayload (mkLog "0xt") None) w u eq_refl eq_refl)).
Defined.

(** X6. A revocation wipes out an assignment: [RoleAssigned] followed by
    [RoleRevoked] for the same address leaves the store that [RoleRevoked]
    alone leaves, and a second [RoleAssigned] for the same address leaves
    the store that it alone leaves (no operation failing). *)
Theorem role_events_absorb :
  forall (userAddress : string) (role1 hospital1 role2 hospital2 : Z)
         (event1 event2 : EventPayload) (w : World),
    faults w = [] ->
    db (exec (handleRoleRevoked userAddress event2)
          (exec (handleRoleAssigned userAddress role1 hospital1 event1) w))
    = db (exec (handleRoleRevoked userAddress event2) w) /\
    db (exec (handleRoleAssigned userAddress role2 hospital2 event2)
          (exec (handleRoleAssigned userAddress role1 hospital1 event1) w))
    = db (exec (handleRoleAssigned userAddress role2 hospital2 event2) w).
Proof.
  intros userAddress role1 hospital1 role2 hospital2 event1 event2 w Hf.
  destruct w as [[rqs hs us rs ars gs] lg ch fl pr co ti]. cbn in Hf. subst fl.
  split; run_handler; f_equal;
    (apply findOneAndUpdate_then;
     [ intros x Hx; split; [exact Hx | reflexivity] | intros ? [=] ]).
Qed.

Lemma role_events_absorb_witness :
  let u := mkUser "0xd1" "Dana" "Patient" None (Some 3%Z) "pending" false None in
  let w := quietWorld (mkStore [] [] [u] [] [] []) in
  let event := ContractEventPayload (mkLog "0xt") None in
  faults w = [] /\
  db (exec (handleRoleRevoked "0xD1" event) (exec (handleRoleAssigned "0xD1" 1 3 event) w))
  = db (exec (handleRoleRevoked "0xD1" event) w).
Proof.
  intros u w event. split; [reflexivity|].
  exact (proj1 (role_events_absorb "0xD1" 1 3 1 3 event event w eq_refl)).
Defined.

(** X7. [PublicKeySaved] reads the key of the address as it arrived from
    the contract and writes it to the user found under the lower-cased
    address.  When the key on chain is empty the store is left as it was,
    whatever fails; when it is not, and nothing fails, the user found
    afterwards carries that key and is otherwise as before, no user is added
    and the other users are left as they were. *)
Theorem public_key_saved_updates :
  forall (userAddress : string) (event : EventPayload) (w : World),
    let byAddress := fun d => bool_decide (u_address d = JS.toLowerCase userAddress) in
    let onChain := publicKey (httpContract_users w userAddress) in
    let w' := exec (handlePublicKeySaved userAddress event) w in
    (onChain = "" -> db w' = db w) /\
    (forall u,
       faults w = [] ->
       onChain <> "" ->
       Model.findOne byAddress (users (db w)) = Some u ->
       Model.findOne byAddress (users (db w'))
       = Some {| u_address := u_address u;
                 u_name := u_name u;
                 u_role := u_role u;
                 u_hospitalId := u_hospitalId u;
                 u_requestedHospitalId := u_requestedHospitalId u;
                 u_professionalStatus := u_professionalStatus u;
                 u_isVerified := u_isVerified u;
                 u_publicKey := Some onChain |} /\
       length (users (db w')) = length (users (db w)) /\
       List.filter (fun d => negb (byAddress d)) (users (db w'))
       = List.filter (fun d => negb (byAddress d)) (users (db w))).
Proof.
  intros userAddress event w byAddress onChain w'. subst w' onChain.
  destruct w as [[rqs hs us rs ars gs] lg ch fl pr co ti]. cbn [httpContract_users].
  split.
  - intros Hempty. any_faults fl; run_handler; rewrite ?Hempty; reflexivity.
  - intros u Hf Hkey Hu. cbn in Hf, Hu. subst fl. run_handler.
    destruct (publicKey (ch userAddress)) as [|c k] eqn:Ek; [contradiction|]. cbn.
    match goal with
    | |- context [Model.findOneAndUpdate _ ?f None us] =>
        exact (update_document byAddress f us u Hu (fun x Hx => Hx))
    end.
Qed.

Lemma public_key_saved_updates_witness :
  let u := mkUser "0xd1" "Dana" "Patient" None None "none" false None in
  let w := mkWorld (mkStore [] [] [u] [] [] []) []
                   (fun a => mkOnChainUser (if String.eqb a "0xD1" then "pk-1" else ""))
                   [] [] [] [] in
  (faults w = [] /\ publicKey (httpContract_users w "0xD1") <> "" /\
   Model.findOne (fun d => bool_decide (u_address d = JS.toLowerCase "0xD1")) (users (db w))
   = Some u) /\
  Model.findOne (fun d => bool_decide (u_address d = JS.toLowerCase "0xD1"))
    (users (db (exec (handlePublicKeySaved "0xD1" (ContractEventPayload (mkLog "0xt") None)) w)))
  = Some (mkUser "0xd1" "Dana" "Patient" None None "none" false (Some "pk-1")).
Proof.
  intros u w.
  assert (Hk : publicKey (httpContract_users w "0xD1") <> "") by discriminate.
  split; [split; [reflexivity | split; [exact Hk | reflexivity]]|].
  exact (proj1 (proj2 (public_key_saved_updates "0xD1" (ContractEventPayload (mkLog "0xt") None) w)
                  u eq_refl Hk eq_refl)).
Defined.

(** ** What the handlers leave alone *)

(** Proves that a handler leaves a collection as it was: no store
    operation of the handler is on that collection. *)
Ltac untouched :=
  match goal with
  | |- ?coll (db (exec ?m ?w)) = ?coll (db ?w) =>
      refine ((_ : preserves (fun s => coll s = coll (db w)) m) w eq_refl);
      unfold_handlers; preserves_steps; cbn; assumption
  end.

(** X8. Each event writes to its own collections only, whatever fails:
    registration requests are written by [RegistrationRequested] and
    [HospitalVerified] alone, hospitals by [HospitalVerified] and
    [HospitalRevoked], users by the hospital, role and key events, records
    by [RecordAdded], access requests by [ProfessionalAccessRequested], and
    grants by [AccessGranted] and [AccessRevoked]. *)
Theorem handlers_frame :
  forall (ev : ChainEvent) (event : EventPayload) (w : World),
    let w' := exec (deliver ev event) w in
    match ev with
    | RegistrationRequested _ _ _ | HospitalVerified _ _ => True
    | _ => registrationRequests (db w') = registrationRequests (db w)
    end /\
    match ev with
    | HospitalVerified _ _ | HospitalRevoked _ => True
    | _ => hospitals (db w') = hospitals (db w)
    end /\
    match ev with
    | HospitalVerified _ _ | HospitalRevoked _ | RoleAssigned _ _ _ | RoleRevoked _
    | PublicKeySaved _ => True
    | _ => users (db w') = users (db w)
    end /\
    match ev with
    | RecordAdded _ _ _ _ _ _ _ _ => True
    | _ => records (db w') = records (db w)
    end /\
    match ev with
    | ProfessionalAccessRequested _ _ _ _ => True
    | _ => accessRequests (db w') = accessRequests (db w)
    end /\
    match ev with
    | AccessGranted _ _ _ _ _ | AccessRevoked _ _ _ => True
    | _ => accessGrants (db w') = accessGrants (db w)
    end.
Proof.
  intros ev event w w'. subst w'.
  destruct ev; repeat split; try exact I; untouched.
Qed.

Lemma updateMany_length {D} `{EqDecision D} (q : D -> bool) (f : D -> D) (c : list D) :
  length (snd (Model.updateMany q f c)) = length c.
Proof. simpl. apply List.length_map. Qed.

(** Proves that a handler does not shorten a collection. *)
Ltac not_shortened :=
  match goal with
  | |- (length (?coll (db ?w)) <= length (?coll (db (exec ?m ?w))))%nat =>
      refine ((_ : preserves (fun s => (length (coll (db w)) <= length (coll s))%nat) m)
                w (le_n _));
      unfold_handlers; preserves_steps; cbn;
      rewrite ?findOneAndUpdate_length_upsert, ?List.length_map; lia
  end.

(** X9. No handler but [AccessRevoked] ever removes a document, whatever
    fails: the five other collections never get shorter, the grants get
    shorter under no event but [AccessRevoked], and [AccessRevoked] never
    adds a grant. *)
Theorem handlers_never_delete :
  forall (ev : ChainEvent) (event : EventPayload) (w : World),
    let w' := exec (deliver ev event) w in
    (length (registrationRequests (db w)) <= length (registrationRequests (db w')))%nat /\
    (length (hospitals (db w)) <= length (hospitals (db w')))%nat /\
    (length (users (db w)) <= length (users (db w')))%nat /\
    (length (records (db w)) <= length (records (db w')))%nat /\
    (length (accessRequests (db w)) <= length (accessRequests (db w')))%nat /\
    match ev with
    | AccessRevoked _ _ _ =>
        (length (accessGrants (db w')) <= length (accessGrants (db w)))%nat
    | _ => (length (accessGrants (db w)) <= length (accessGrants (db w')))%nat
    end.
Proof.
  intros ev event w w'. subst w'.
  destruct ev; repeat split; try not_shortened.
  destruct w as [[rqs hs us rs ars gs] lg ch fl pr co ti].
  any_faults fl; run_handler; try lia; apply List.filter_length_le.
Qed.

(** ** How events for one key compose *)

(** X10. The last event for a key wins: of two [RegistrationRequested]
    for one request id, two [RecordAdded] for one record id, two
    [ProfessionalAccessRequested] for one request id, or two
    [AccessGranted] for one record and grantee, handled one after the other
    without a failing operation (the second grant with its block resolved),
    the store is the one the second event alone leaves. *)
Theorem later_upsert_wins :
  forall (id : Z) (event1 event2 : EventPayload) (w : World),
    faults w = [] ->
    (forall name1 requester1 name2 requester2,
       db (exec (handleRegistrationRequested id name2 requester2 event2)
             (exec (handleRegistrationRequested id name1 requester1 event1) w))
       = db (exec (handleRegistrationRequested id name2 requester2 event2) w)) /\
    (forall owner1 title1 hash1 category1 verified1 by1 time1
            owner2 title2 hash2 category2 verified2 by2 time2,
       db (exec (handleRecordAdded id owner2 title2 hash2 category2 verified2 by2 time2 event2)
             (exec (handleRecordAdded id owner1 title1 hash1 category1 verified1 by1 time1
                                      event1) w))
       = db (exec (handleRecordAdded id owner2 title2 hash2 category2 verified2 by2 time2
                                     event2) w)) /\
    (forall records1 professional1 patient1 records2 professional2 patient2,
       db (exec (handleProfessionalAccessRequested id records2 professional2 patient2 event2)
             (exec (handleProfessionalAccessRequested id records1 professional1 patient1
                                                      event1) w))
       = db (exec (handleProfessionalAccessRequested id records2 professional2 patient2
                                                     event2) w)) /\
    (forall owner1 expiration1 key1 owner2 expiration2 key2 grantee block2,
       getBlock event2 = Some block2 ->
       db (exec (handleAccessGranted id owner2 grantee expiration2 key2 event2)
             (exec (handleAccessGranted id owner1 grantee expiration1 key1 event1) w))
       = db (exec (handleAccessGranted id owner2 grantee expiration2 key2 event2) w)).
Proof.
  intros id event1 event2 w Hf.
  destruct w as [[rqs hs us rs ars gs] lg ch fl pr co ti]. cbn in Hf. subst fl.
  assert (Hthen : forall {D} (q : D -> bool) (a b : D) (c : list D),
            q a = true ->
            snd (Model.findOneAndUpdate q (fun _ => b) (Some b)
                   (snd (Model.findOneAndUpdate q (fun _ => a) (Some a) c)))
            = snd (Model.findOneAndUpdate q (fun _ => b) (Some b) c)).
  { intros D q a b c Ha. apply findOneAndUpdate_then.
    - intros d Hd. split; [exact Ha | reflexivity].
    - intros x [= <-]. split; [exact Ha | reflexivity]. }
  repeat split; intros.
  - run_handler. f_equal. apply Hthen. apply bool_decide_eq_true. reflexivity.
  - run_handler. f_equal. apply Hthen. apply bool_decide_eq_true. reflexivity.
  - run_handler. f_equal. apply Hthen. apply bool_decide_eq_true. reflexivity.
  - run_handler. rewrite H. cbn. destruct (getBlock event1); cbn; [|reflexivity].
    f_equal. apply Hthen.
    unfold grantDocument. cbn. rewrite !bool_decide_eq_true_2 by reflexivity. reflexivity.
Qed.

Lemma later_upsert_wins_witness :
  let w := quietWorld emptyStore in
  let event := ContractEventPayload (mkLog "0xt") None in
  faults w = [] /\
  db (exec (handleRegistrationRequested 7 "Acme Clinic" "0xA2" event)
        (exec (handleRegistrationRequested 7 "Acme" "0xA1" event) w))
  = db (exec (handleRegistrationRequested 7 "Acme Clinic" "0xA2" event) w).
Proof.
  intros w event. split; [reflexivity|].
  exact (proj1 (later_upsert_wins 7 event event w eq_refl) "Acme" "0xA1" "Acme Clinic" "0xA2").
Defined.

(** The documents outside a set that contains whatever an update selects
    and writes are left alone by the update. *)
Lemma findOneAndUpdate_outside {D} (q p : D -> bool) (f : D -> D) upsert (c : list D) :
  (forall d, q d = true -> p d = true /\ p (f d) = true) ->
  (forall a, upsert = Some a -> p a = true) ->
  List.filter (fun d => negb (p d)) (snd (Model.findOneAndUpdate q f upsert c))
  = List.filter (fun d => negb (p d)) c.
Proof.
  intros Hf Hu. unfold Model.findOneAndUpdate.
  destruct (Model.updateFirst q f c) as [[d' c']|] eqn:E; simpl.
  - apply updateFirst_Some in E as (pre & d & post & -> & _ & Hd & _ & ->).
    destruct (Hf d Hd) as [Hp Hpf].
    rewrite !List.filter_app. simpl. rewrite Hp, Hpf. reflexivity.
  - destruct upsert as [a|]; simpl; [|reflexivity].
    rewrite List.filter_app. simpl. rewrite (Hu a eq_refl). simpl.
    apply app_nil_r.
Qed.

(** X11. A revocation undoes a grant: [AccessGranted] for a record and a
    grantee followed by [AccessRevoked] for that grantee and a list that
    names the record leaves the store that the revocation alone leaves; and
    if the store held no grant of that grantee for the record, a revocation
    of just that record gives back the store from before the grant (no
    operation failing). *)
Theorem revoke_undoes_grant :
  forall (recordId : Z) (owner grantee : string) (expiration : Z) (encryptedDek : string)
         (patient : string) (recordIds : list Z) (event1 event2 : EventPayload) (w : World),
    faults w = [] ->
    (recordId ∈ recordIds ->
     db (exec (handleAccessRevoked patient grantee recordIds event2)
           (exec (handleAccessGranted recordId owner grantee expiration encryptedDek event1) w))
     = db (exec (handleAccessRevoked patient grantee recordIds event2) w)) /\
    (Forall (fun d => ~ (g_recordId d = JS.Number recordId /\
                         g_professionalAddress d = JS.toLowerCase grantee))
            (accessGrants (db w)) ->
     db (exec (handleAccessRevoked patient grantee [recordId] event2)
           (exec (handleAccessGranted recordId owner grantee expiration encryptedDek event1) w))
     = db w).
Proof.
  intros recordId owner grantee expiration encryptedDek patient recordIds event1 event2 w Hf.
  destruct w as [[rqs hs us rs ars gs] lg ch fl pr co ti]. cbn in Hf. subst fl.
  assert (Habsorb : forall ids, recordId ∈ ids ->
    db (exec (handleAccessRevoked patient grantee ids event2)
          (exec (handleAccessGranted recordId owner grantee expiration encryptedDek event1)
                (mkWorld (mkStore rqs hs us rs ars gs) lg ch [] pr co ti)))
    = db (exec (handleAccessRevoked patient grantee ids event2)
            (mkWorld (mkStore rqs hs us rs ars gs) lg ch [] pr co ti))).
  { intros ids Hin. run_handler. destruct (getBlock event1); cbn; [|reflexivity].
    f_equal.
    apply (findOneAndUpdate_outside _
             (fun d => bool_decide (g_professionalAddress d = JS.toLowerCase grantee)
                       && bool_decide (g_recordId d ∈ List.map JS.Number ids))).
    - intros d Hd. apply andb_true_iff in Hd as [Hr Ha].
      apply bool_decide_eq_true in Hr, Ha.
      assert (Hmem : JS.Number recordId ∈ List.map JS.Number ids).
      { apply list_elem_of_In, in_map, list_elem_of_In. exact Hin. }
      split; cbn; rewrite ?Hr, ?Ha, !bool_decide_eq_true_2; auto.
    - intros a [= <-]. cbn.
      rewrite !bool_decide_eq_true_2; [reflexivity | | reflexivity].
      apply list_elem_of_In, in_map, list_elem_of_In. exact Hin. }
  split; [exact (Habsorb recordIds)|].
  intros Hnone. cbn in Hnone. rewrite Habsorb by (apply list_elem_of_singleton; reflexivity).
  run_handler. f_equal.
  rewrite List.forallb_filter_id; [reflexivity|].
  apply List.forallb_forall. intros d Hd.
  rewrite Forall_forall in Hnone. specialize (Hnone d (proj2 (list_elem_of_In _ _) Hd)).
  apply negb_true_iff, andb_false_iff.
  destruct (bool_decide (g_professionalAddress d = JS.toLowerCase grantee)) eqn:Ea;
    [right | left; reflexivity].
  apply bool_decide_eq_true in Ea. apply bool_decide_eq_false. intros Hin.
  apply list_elem_of_singleton in Hin. apply Hnone. split; assumption.
Qed.

Lemma revoke_undoes_grant_witness :
  let kept := mkAccessGrant 2 "0xaa" "0xbb" (JS.TimeValue 9) "k" (JS.TimeValue 1) in
  let w := quietWorld (mkStore [] [] [] [] [] [kept]) in
  let event := ContractEventPayload (mkLog "0xt") (Some (mkBlock 1700000000)) in
  (faults w = [] /\
   Forall (fun d => ~ (g_recordId d = JS.Number 1 /\
                       g_professionalAddress d = JS.toLowerCase "0xBB"))
          (accessGrants (db w))) /\
  db (exec (handleAccessRevoked "0xAA" "0xBB" [1%Z] event)
        (exec (handleAccessGranted 1 "0xAA" "0xBB" 20 "k1" event) w))
  = db w.
Proof.
  intros kept w event.
  assert (Hnone : Forall (fun d => ~ (g_recordId d = JS.Number 1 /\
                                      g_professionalAddress d = JS.toLowerCase "0xBB"))
                         (accessGrants (db w))).
  { repeat constructor. intros [H _]. discriminate H. }
  split; [split; [reflexivity | exact Hnone]|].
  exact (proj2 (revoke_undoes_grant 1 "0xAA" "0xBB" 20 "k1" "0xAA" [1%Z] event event w eq_refl)
           Hnone).
Defined.

(** X12. The dates of a grant: after [AccessGranted] has been handled
    with its block resolved and nothing failing, for an expiration and a
    block timestamp within 8.64e12 seconds of the epoch (the range of a
    [Date]), the grant found under the record and the lower-cased grantee
    expires at the date [expiration] seconds after the epoch and was
    created at the date of the block's timestamp. *)
Theorem grant_dates :
  forall (recordId : Z) (owner grantee : string) (expiration : Z) (encryptedDek : string)
         (event : EventPayload) (block : Block) (w : World),
    faults w = [] ->
    getBlock event = Some block ->
    (Z.abs expiration <= 8640000000000)%Z ->
    (Z.abs (timestamp block) <= 8640000000000)%Z ->
    let w' := exec (handleAccessGranted recordId owner grantee expiration encryptedDek event) w in
    exists d,
      Model.findOne (fun d => bool_decide (g_recordId d = JS.Number recordId)
                              && bool_decide (g_professionalAddress d = JS.toLowerCase grantee))
                    (accessGrants (db w')) = Some d /\
      g_expirationTimestamp d = JS.TimeValue (expiration * 1000) /\
      g_createdAt d = JS.TimeValue (timestamp block * 1000) /\
      g_patientAddress d = JS.toLowerCase owner /\
      g_rewrappedKey d = encryptedDek.
Proof.
  intros recordId owner grantee expiration encryptedDek event block w Hf Hb He Hc w'.
  apply Z.leb_le in He, Hc.
  destruct (handleAccessGranted_run recordId owner grantee expiration encryptedDek event block
              w Hf Hb) as [_ Hdb].
  fold w' in Hdb. rewrite Hdb.
  eexists. split.
  - apply upsert_document. unfold grantDocument. cbn.
    rewrite !bool_decide_eq_true_2 by reflexivity. reflexivity.
  - unfold grantDocument. cbn.
    rewrite bigint_seconds_to_Date, seconds_to_Date, He, Hc. repeat split.
Qed.

Lemma grant_dates_witness :
  let w := quietWorld emptyStore in
  let event := ContractEventPayload (mkLog "0xt") (Some (mkBlock 1700000000)) in
  (faults w = [] /\ getBlock event = Some (mkBlock 1700000000) /\
   (Z.abs 1800000000 <= 8640000000000)%Z /\
   (Z.abs (timestamp (mkBlock 1700000000)) <= 8640000000000)%Z) /\
  exists d,
    Model.findOne (fun d => bool_decide (g_recordId d = JS.Number 1)
                            && bool_decide (g_professionalAddress d = JS.toLowerCase "0xBB"))
      (accessGrants (db (exec (handleAccessGranted 1 "0xAA" "0xBB" 1800000000 "k" event) w)))
    = Some d /\
    g_expirationTimestamp d = JS.TimeValue 1800000000000 /\
    g_createdAt d = JS.TimeValue 1700000000000.
Proof.
  intros w event.
  assert (He : (Z.abs 1800000000 <= 8640000000000)%Z) by (simpl; lia).
  assert (Hc : (Z.abs (timestamp (mkBlock 1700000000)) <= 8640000000000)%Z) by (simpl; lia).
  split; [repeat split; assumption|].
  destruct (grant_dates 1 "0xAA" "0xBB" 1800000000 "k" event (mkBlock 1700000000) w
              eq_refl eq_refl He Hc) as (d & Hd & Hexp & Hcreated & _).
  exists d. split; [exact Hd|]. split; [exact Hexp | exact Hcreated].
Defined.

(** ** Every connection attempt ends subscribed or with a retry pending *)

(** Splits a fault plan as far as one connection attempt can look. *)
Ltac attempt_cases fl n :=
  lazymatch n with
  | O => idtac
  | S ?n' => destruct fl as [|[?|] fl]; [ | | attempt_cases fl n']
  end.

Lemma connectWebSocket_outcome (config : Config) (w : World) :
  exists w',
    connectWebSocket config w = Normal tt w' /\
    db w' = db w /\
    ((providers w' = providers w ++ [["network"; "error"]] /\
      contracts w' = contracts w ++ [allListeners] /\
      timers w' = timers w) \/
     (timers w' = timers w ++ [mkTimer ConnectWebSocket 5000] /\
      (contracts w' = contracts w \/ contracts w' = contracts w ++ [[]]))).
Proof.
  destruct w as [s lg ch fl pr co ti].
  attempt_cases fl 14%nat;
    (eexists; split; [run_connect; reflexivity|]; cbn [db providers contracts timers];
     split; [reflexivity|];
     first [ left; repeat split; reflexivity
           | right; split; [reflexivity | first [left; reflexivity | right; reflexivity]] ]).
Qed.

(** X13. The connection manager never gives up silently: whatever throws
    and whenever, a call of [connectWebSocket] returns normally and leaves
    the indexer subscribed with all ten listeners or with a five-second
    retry pending, never with both added; and firing a pending retry keeps
    it so, for any number of retries. *)
Theorem connection_subscribed_or_retrying :
  forall (config : Config) (w : World),
    (exists w',
       connectWebSocket config w = Normal tt w' /\
       db w' = db w /\
       (contracts w' = contracts w ++ [allListeners] /\ timers w' = timers w \/
        timers w' = timers w ++ [mkTimer ConnectWebSocket 5000] /\
        allListeners ∉ drop (length (contracts w)) (contracts w'))) /\
    (subscribedOrRetrying w -> subscribedOrRetrying (exec (fireTimer config) w)) /\
    (forall n,
       subscribedOrRetrying
         (Nat.iter n (exec (fireTimer config)) (exec (connectWebSocket config) w))).
Proof.
  intros config w.
  pose proof (connectWebSocket_outcome config) as Hout.
  unfold exec, fireTimer. set (m := connectWebSocket config) in *. clearbody m.
  assert (Hconnect : forall w0, subscribedOrRetrying (finalWorld (m w0))).
  { intros w0.
    destruct (Hout w0) as (w' & -> & _ & [(_ & Hc & _)|(Ht & _)]); cbn [finalWorld].
    - right. rewrite Hc. apply elem_of_app. right. apply list_elem_of_singleton.
      reflexivity.
    - left. unfold retryPending. rewrite Ht. apply elem_of_app. right.
      apply list_elem_of_singleton. reflexivity. }
  assert (Hfire : forall w0,
            subscribedOrRetrying w0 ->
            subscribedOrRetrying
              (finalWorld match timers w0 with
                          | [] => Normal tt w0
                          | t :: rest =>
                              match callback t with
                              | ConnectWebSocket => m (set_timers rest w0)
                              end
                          end)).
  { intros w0 H0. destruct (timers w0) as [|[[] d] rest] eqn:Et.
    - exact H0.
    - apply Hconnect. }
  split; [|split].
  - destruct (Hout w) as (w' & Hrun & Hdb & [(_ & Hc & Ht)|(Ht & Hc)]).
    + exists w'. split; [exact Hrun|]. split; [exact Hdb|]. left. split; assumption.
    + exists w'. split; [exact Hrun|]. split; [exact Hdb|]. right. split; [exact Ht|].
      destruct Hc as [-> | ->].
      * rewrite drop_all. apply not_elem_of_nil.
      * rewrite drop_app_length. intros H. apply list_elem_of_singleton in H. discriminate H.
  - apply Hfire.
  - intros n. induction n as [|n IH]; simpl; [apply Hconnect | apply Hfire; exact IH].
Qed.

Lemma connection_subscribed_or_retrying_witness :
  let config := mkConfig "wss://rpc.example/ws" "0xC0" in
  let w := mkWorld emptyStore [] (fun _ => mkOnChainUser "")
                   [None; None; None; Some "listener failed"] [] []
                   [mkTimer ConnectWebSocket 5000] in
  subscribedOrRetrying w /\
  subscribedOrRetrying (exec (fireTimer config) w).
Proof.
  intros config w.
  assert (H : subscribedOrRetrying w).
  { left. apply list_elem_of_singleton. reflexivity. }
  split; [exact H|].
  exact (proj1 (proj2 (connection_subscribed_or_retrying config w)) H).
Defined.

Ltac run_start :=
  lazy beta iota zeta delta
    [detached startIndexer new_JsonRpcProvider new_httpContract onUnhandledRejection
     exec finalWorld bind settle logger ret
     db logged httpContract_users faults providers contracts timers
     set_db set_logged set_faults set_providers set_contracts set_timers].

(** X14. Starting the indexer, as the server does, without awaiting it: a
    throw while the HTTP provider or the read-only contract is built is not
    retried but ends the process with exit code 1 through the
    [unhandledRejection] listener, before anything is subscribed or
    scheduled; when both are built, the process stays alive, subscribed or
    with a retry pending, whatever else throws. *)
Theorem start_indexer_detached :
  forall (providerUrl : string) (config : Config) (w : World),
    (forall e rest,
       faults w = Some e :: rest \/ faults w = None :: Some e :: rest ->
       exists w',
         detached (startIndexer providerUrl config) w = Exited 1 w' /\
         faults w' = rest /\
         providers w' = providers w /\
         contracts w' = contracts w /\
         timers w' = timers w /\
         db w' = db w) /\
    (faults w = [] \/ faults w = [None] \/ (exists rest, faults w = None :: None :: rest) ->
     exists w',
       detached (startIndexer providerUrl config) w = Alive w' /\
       subscribedOrRetrying w' /\
       db w' = db w).
Proof.
  intros providerUrl config [s lg ch fl pr co ti]. cbn [faults providers contracts timers db].
  split.
  - intros e rest [-> | ->]; eexists;
      (split; [run_start; reflexivity|]); repeat split.
  - intros Hok.
    assert (Hrun : exists lg' fl',
              startIndexer providerUrl config (mkWorld s lg ch fl pr co ti)
              = connectWebSocket config (mkWorld s lg' ch fl' pr co ti)).
    { destruct Hok as [-> | [-> | (rest & ->)]]; do 2 eexists; run_start; reflexivity. }
    destruct Hrun as (lg' & fl' & Hrun). unfold detached. rewrite Hrun.
    destruct (connectWebSocket_outcome config (mkWorld s lg' ch fl' pr co ti))
      as (w' & Hc & Hdb & Hcases).
    rewrite Hc. exists w'. split; [reflexivity|]. split; [|exact Hdb].
    destruct Hcases as [(_ & Hco & _)|(Ht & _)].
    + right. rewrite Hco. apply elem_of_app. right. apply list_elem_of_singleton. reflexivity.
    + left. unfold retryPending. rewrite Ht. apply elem_of_app. right.
      apply list_elem_of_singleton. reflexivity.
Qed.

Lemma start_indexer_detached_witness :
  let config := mkConfig "wss://rpc.example/ws" "0xC0" in
  let w := mkWorld emptyStore [] (fun _ => mkOnChainUser "") [Some "invalid URL"] [] [] [] in
  faults w = [Some "invalid URL"] /\
  exists w',
    detached (startIndexer "not a url" config) w = Exited 1 w' /\
    contracts w' = [] /\ timers w' = [].
Proof.
  intros config w. split; [reflexivity|].
  destruct (proj1 (start_indexer_detached "not a url" config w) "invalid URL" []
              (or_introl eq_refl)) as (w' & Hrun & _ & _ & Hc & Ht & _).
  exists w'. split; [exact Hrun|]. split; [exact Hc | exact Ht].
Defined.

(** ** Loading the configuration *)

Lemma falsy_false (x : option string) :
  falsy x = false <-> exists c s, x = Some (String c s).
Proof.
  destruct x as [[|c s]|]; simpl; split; try discriminate; eauto;
    intros (c' & s' & H); discriminate H.
Qed.

(** X15. Loading the configuration ends the process, with exit code 1,
    exactly when [NODE_ENV] is not [test] and one of the six required
    variables is unset or empty; [PORT] and [FRONTEND_URL] never matter.
    A configuration exported outside test mode has all six set and
    non-empty and nothing was written to the error stream; under test mode
    the configuration is exported even with variables missing.  The port
    is 3001 exactly when [PORT] is unset or empty. *)
Theorem config_load :
  forall (env : gmap string string),
    ((exists stderr, loadConfig env = ProcessExit 1 stderr) <->
     env !! "NODE_ENV" <> Some "test" /\
     Exists (fun name => falsy (env !! name) = true) requiredVariables) /\
    (forall code stderr, loadConfig env = ProcessExit code stderr -> code = 1%Z) /\
    (forall config stderr,
       loadConfig env = Exports config stderr ->
       config = readConfig env /\
       (env !! "NODE_ENV" <> Some "test" ->
        stderr = [] /\
        Forall (fun name => exists c s, env !! name = Some (String c s)) requiredVariables)) /\
    (env !! "NODE_ENV" = Some "test" -> exists stderr, loadConfig env = Exports (readConfig env) stderr) /\
    (cfg_port (readConfig env) = inr 3001%Z <-> falsy (env !! "PORT") = true).
Proof.
  intros env.
  assert (Hmissing :
    falsy (env !! "MONGO_URI") || falsy (env !! "PROVIDER_URL")
    || falsy (env !! "CONTRACT_ADDRESS") || falsy (env !! "SUPER_ADMIN_PRIVATE_KEY")
    || falsy (env !! "SPONSOR_PRIVATE_KEY") || falsy (env !! "JWT_SECRET") = true
    <-> Exists (fun name => falsy (env !! name) = true) requiredVariables).
  { unfold requiredVariables. rewrite !Exists_cons, Exists_nil, !orb_true_iff. tauto. }
  assert (Hpresent :
    falsy (env !! "MONGO_URI") || falsy (env !! "PROVIDER_URL")
    || falsy (env !! "CONTRACT_ADDRESS") || falsy (env !! "SUPER_ADMIN_PRIVATE_KEY")
    || falsy (env !! "SPONSOR_PRIVATE_KEY") || falsy (env !! "JWT_SECRET") = false
    -> Forall (fun name => exists c s, env !! name = Some (String c s)) requiredVariables).
  { rewrite !orb_false_iff. intros (((((H1 & H2) & H3) & H4) & H5) & H6).
    unfold requiredVariables. repeat constructor; apply falsy_false; assumption. }
  assert (Hport : cfg_port (readConfig env) = inr 3001%Z <-> falsy (env !! "PORT") = true).
  { cbn [readConfig cfg_port]. unfold portOf.
    destruct (env !! "PORT") as [[|c s]|]; simpl; split; (reflexivity || discriminate). }
  unfold loadConfig. cbn [readConfig cfg_mongoURI cfg_providerUrl cfg_contractAddress
    cfg_superAdminPrivateKey cfg_sponsorPrivateKey cfg_jwtSecret].
  destruct (falsy (env !! "MONGO_URI") || _ || _ || _ || _ || _) eqn:Hcheck;
    destruct (bool_decide (env !! "NODE_ENV" = Some "test")) eqn:Htest; cbn [negb];
    [apply bool_decide_eq_true in Htest | apply bool_decide_eq_false in Htest
    | apply bool_decide_eq_true in Htest | apply bool_decide_eq_false in Htest];
    (split; [|split; [|split; [|split; [|exact Hport]]]]).
  - split; [intros [x Hx]; discriminate Hx | intros [Hn _]; contradiction].
  - intros code stderr Hx. discriminate Hx.
  - intros config stderr [= <- <-]. split; [reflexivity | intros Hn; contradiction].
  - intros _. eexists. reflexivity.
  - split; [intros _; split; [exact Htest | apply Hmissing; reflexivity]
           | intros _; eexists; reflexivity].
  - intros code stderr [= <- _]. reflexivity.
  - intros config stderr Hx. discriminate Hx.
  - intros Hn. contradiction.
  - split; [intros [x Hx]; discriminate Hx | intros [Hn _]; contradiction].
  - intros code stderr Hx. discriminate Hx.
  - intros config stderr [= <- <-]. split; [reflexivity | intros Hn; contradiction].
  - intros _. eexists. reflexivity.
  - split; [intros [x Hx]; discriminate Hx
           | intros [_ Hx]; apply Hmissing in Hx; congruence].
  - intros code stderr Hx. discriminate Hx.
  - intros config stderr [= <- <-]. split; [reflexivity|].
    intros _. split; [reflexivity | apply Hpresent; reflexivity].
  - intros Hn. contradiction.
Qed.

Lemma config_load_witness :
  (incompleteEnvironment !! "NODE_ENV" <> Some "test" /\
   Exists (fun name => falsy (incompleteEnvironment !! name) = true) requiredVariables) /\
  exists stderr, loadConfig incompleteEnvironment = ProcessExit 1 stderr.
Proof.
  match goal with |- ?P /\ _ => assert (H : P) end.
  { split; [vm_compute; discriminate|].
    unfold requiredVariables. do 4 apply Exists_cons_tl. apply Exists_cons_hd.
    vm_compute. reflexivity. }
  split; [exact H|].
  exact (proj2 (proj1 (config_load incompleteEnvironment)) H).
Defined.

(** X16. The two versions of the configuration module: the later one
    ends the process whenever the earlier one does, and beyond that exactly
    when [NODE_ENV] is not [test] and [POLYGON_AMOY_WSS_URL] is unset or
    empty; when both export, they agree on every setting they share. *)
Theorem config_versions :
  forall (env : gmap string string),
    ((exists stderr, loadConfigWss env = ProcessExit 1 stderr) <->
     (exists stderr, loadConfig env = ProcessExit 1 stderr) \/
     (env !! "NODE_ENV" <> Some "test" /\ falsy (env !! "POLYGON_AMOY_WSS_URL") = true)) /\
    (forall c1 e1 c2 e2,
       loadConfig env = Exports c1 e1 ->
       loadConfigWss env = Exports c2 e2 ->
       wss_port c2 = cfg_port c1 /\
       wss_mongoURI c2 = cfg_mongoURI c1 /\
       wss_jwtSecret c2 = cfg_jwtSecret c1 /\
       wss_providerUrl c2 = cfg_providerUrl c1 /\
       wss_contractAddress c2 = cfg_contractAddress c1 /\
       wss_superAdminPrivateKey c2 = cfg_superAdminPrivateKey c1 /\
       wss_sponsorPrivateKey c2 = cfg_sponsorPrivateKey c1 /\
       wss_frontendUrl c2 = cfg_frontendUrl c1 /\
       wss_polygonAmoyWssUrl c2 = env !! "POLYGON_AMOY_WSS_URL").
Proof.
  intros env. unfold loadConfig, loadConfigWss.
  cbn [readConfig readConfigWss cfg_mongoURI cfg_providerUrl cfg_contractAddress
       cfg_superAdminPrivateKey cfg_sponsorPrivateKey cfg_jwtSecret
       wss_mongoURI wss_providerUrl wss_polygonAmoyWssUrl wss_contractAddress
       wss_superAdminPrivateKey wss_sponsorPrivateKey wss_jwtSecret].
  assert (Hcheck :
    falsy (env !! "MONGO_URI") || falsy (env !! "PROVIDER_URL")
    || falsy (env !! "POLYGON_AMOY_WSS_URL")
    || falsy (env !! "CONTRACT_ADDRESS") || falsy (env !! "SUPER_ADMIN_PRIVATE_KEY")
    || falsy (env !! "SPONSOR_PRIVATE_KEY") || falsy (env !! "JWT_SECRET")
    = (falsy (env !! "MONGO_URI") || falsy (env !! "PROVIDER_URL")
       || falsy (env !! "CONTRACT_ADDRESS") || falsy (env !! "SUPER_ADMIN_PRIVATE_KEY")
       || falsy (env !! "SPONSOR_PRIVATE_KEY") || falsy (env !! "JWT_SECRET"))
      || falsy (env !! "POLYGON_AMOY_WSS_URL")).
  { destruct (falsy (env !! "MONGO_URI")), (falsy (env !! "PROVIDER_URL")),
      (falsy (env !! "CONTRACT_ADDRESS")), (falsy (env !! "SUPER_ADMIN_PRIVATE_KEY")),
      (falsy (env !! "SPONSOR_PRIVATE_KEY")), (falsy (env !! "JWT_SECRET")),
      (falsy (env !! "POLYGON_AMOY_WSS_URL")); reflexivity. }
  rewrite Hcheck. clear Hcheck.
  destruct (falsy (env !! "MONGO_URI") || _ || _ || _ || _ || _);
    destruct (falsy (env !! "POLYGON_AMOY_WSS_URL"));
    (destruct (bool_decide (env !! "NODE_ENV" = Some "test")) eqn:Htest;
     [apply bool_decide_eq_true in Htest | apply bool_decide_eq_false in Htest]); cbn;
    (split;
     [ split;
       [ first [ intros [x Hx]; discriminate Hx
               | intros _; first [ left; eexists; reflexivity
                                 | right; split; [exact Htest | reflexivity] ] ]
       | first [ intros _; eexists; reflexivity
               | intros [[x Hx] | [Hn Hw]];
                 first [ discriminate Hx | contradiction | discriminate Hw ] ] ]
     | intros c1 e1 c2 e2 H1 H2;
       first [ discriminate H1 | discriminate H2
             | injection H1 as <- <-; injection H2 as <- <-; repeat split ] ]).
Qed.

Lemma config_versions_witness :
  (completeEnvironment !! "NODE_ENV" <> Some "test" /\
   falsy (completeEnvironment !! "POLYGON_AMOY_WSS_URL") = true) /\
  (exists stderr, loadConfigWss completeEnvironment = ProcessExit 1 stderr) /\
  loadConfig completeEnvironment = Exports (readConfig completeEnvironment) [].
Proof.
  match goal with |- ?P /\ _ => assert (H : P) end.
  { split; [vm_compute; discriminate | vm_compute; reflexivity]. }
  split; [exact H|]. split.
  - exact (proj2 (proj1 (config_versions completeEnvironment)) (or_intror H)).
  - vm_compute. reflexivity.
Defined.

(** ** Fetching from IPFS *)

Lemma tryGateways_found fetch ipfsHash gs effects r :
  tryGateways fetch ipfsHash gs = (effects, Some r) ->
  exists i g,
    gs !! i = Some g /\
    fetch (g +:+ ipfsHash) = Fulfilled r /\ resp_ok r = true /\
    (forall j g', (j < i)%nat -> gs !! j = Some g' -> ~ answers fetch ipfsHash g') /\
    requested effects = List.map (fun g => g +:+ ipfsHash) (take (S i) gs) /\
    toasts effects = [].
Proof.
  revert effects. induction gs as [|g gs IH]; simpl; intros effects H; [discriminate|].
  assert (Hstep : forall eff,
            tryGateways fetch ipfsHash gs = (eff, Some r) ->
            ~ answers fetch ipfsHash g ->
            exists i g0,
              (g :: gs) !! i = Some g0 /\
              fetch (g0 +:+ ipfsHash) = Fulfilled r /\ resp_ok r = true /\
              (forall j g', (j < i)%nat -> (g :: gs) !! j = Some g' ->
                            ~ answers fetch ipfsHash g') /\
              (g +:+ ipfsHash) :: requested eff
              = List.map (fun g => g +:+ ipfsHash) (take (S i) (g :: gs)) /\
              toasts eff = []).
  { intros eff Ht Hg.
    destruct (IH _ Ht) as (i & g0 & Hi & Hf & Hok & Hbefore & Hreq & Hto).
    exists (S i), g0. split; [exact Hi|]. split; [exact Hf|]. split; [exact Hok|].
    split; [|split; [simpl; f_equal; exact Hreq | exact Hto]].
    intros [|j] g' Hj Hg'; simpl in Hg'.
    - injection Hg' as <-. exact Hg.
    - apply (Hbefore j g'); [lia | exact Hg']. }
  destruct (fetch (g +:+ ipfsHash)) as [resp|err] eqn:Ef.
  - destruct (resp_ok resp) eqn:Eok.
    + injection H as <- <-. exists 0%nat, g.
      split; [reflexivity|]. split; [exact Ef|]. split; [exact Eok|].
      split; [intros j g' Hj; lia | split; reflexivity].
    + destruct (tryGateways fetch ipfsHash gs) as [eff res] eqn:Et.
      injection H as <- ->. apply (Hstep eff eq_refl).
      intros (r' & Hr' & Hok'). congruence.
  - destruct (tryGateways fetch ipfsHash gs) as [eff res] eqn:Et.
    injection H as <- ->. apply (Hstep eff eq_refl).
    intros (r' & Hr' & Hok'). congruence.
Qed.

Lemma tryGateways_exhausted fetch ipfsHash gs effects :
  tryGateways fetch ipfsHash gs = (effects, None) ->
  Forall (fun g => ~ answers fetch ipfsHash g) gs /\
  requested effects = List.map (fun g => g +:+ ipfsHash) gs /\
  toasts effects = [].
Proof.
  revert effects. induction gs as [|g gs IH]; simpl; intros effects H.
  - injection H as <-. split; [constructor | split; reflexivity].
  - assert (Hstep : forall eff,
              tryGateways fetch ipfsHash gs = (eff, None) ->
              ~ answers fetch ipfsHash g ->
              Forall (fun g => ~ answers fetch ipfsHash g) (g :: gs) /\
              (g +:+ ipfsHash) :: requested eff
              = (g +:+ ipfsHash) :: List.map (fun g => g +:+ ipfsHash) gs /\
              toasts eff = []).
    { intros eff Ht Hg. destruct (IH _ Ht) as (Hall & Hreq & Hto).
      split; [constructor; assumption | split; [f_equal; exact Hreq | exact Hto]]. }
    destruct (fetch (g +:+ ipfsHash)) as [resp|err] eqn:Ef.
    + destruct (resp_ok resp) eqn:Eok; [discriminate|].
      destruct (tryGateways fetch ipfsHash gs) as [eff res] eqn:Et.
      injection H as <- ->. apply (Hstep eff eq_refl).
      intros (r' & Hr' & Hok'). congruence.
    + destruct (tryGateways fetch ipfsHash gs) as [eff res] eqn:Et.
      injection H as <- ->. apply (Hstep eff eq_refl).
      intros (r' & Hr' & Hok'). congruence.
Qed.

Lemma toasts_app (a b : list Effect) : toasts (a ++ b) = toasts a ++ toasts b.
Proof.
  induction a as [|[] a IH]; simpl; rewrite ?IH; reflexivity.
Qed.

Lemma requested_app (a b : list Effect) : requested (a ++ b) = requested a ++ requested b.
Proof.
  induction a as [|[] a IH]; simpl; rewrite ?IH; reflexivity.
Qed.

(** X17. [fetchFromIPFS] returns the response of the first gateway, in
    the order of the list, that answers with an [ok] response: no gateway
    before it answers, the gateways up to it are requested once each, in
    order, none after it, and no toast is shown.  It throws exactly when no
    gateway answers, after having requested all five in order and with a
    single toast. *)
Theorem fetch_first_answering_gateway :
  forall (fetch : string -> Settled Response) (ipfsHash : string),
    let (effects, result) := fetchFromIPFS fetch ipfsHash in
    match result with
    | inl r =>
        exists i g,
          gateways !! i = Some g /\
          fetch (g +:+ ipfsHash) = Fulfilled r /\ resp_ok r = true /\
          (forall j g', (j < i)%nat -> gateways !! j = Some g' -> ~ answers fetch ipfsHash g') /\
          requested effects = List.map (fun g => g +:+ ipfsHash) (take (S i) gateways) /\
          toasts effects = []
    | inr message =>
        Forall (fun g => ~ answers fetch ipfsHash g) gateways /\
        requested effects = List.map (fun g => g +:+ ipfsHash) gateways /\
        toasts effects = ["Failed to fetch file " +:+ ipfsHash +:+ " from all gateways."] /\
        message = "Failed to fetch " +:+ ipfsHash +:+ " from all available IPFS gateways."
    end.
Proof.
  intros fetch ipfsHash. unfold fetchFromIPFS.
  destruct (tryGateways fetch ipfsHash gateways) as [effects [r|]] eqn:E.
  - exact (tryGateways_found _ _ _ _ _ E).
  - destruct (tryGateways_exhausted _ _ _ _ E) as (Hall & Hreq & Ht).
    split; [exact Hall|]. split; [|split; [|reflexivity]].
    + rewrite requested_app, Hreq. reflexivity.
    + rewrite toasts_app, Ht. reflexivity.
Qed.

(** The first gateway of a list to answer is the one the loop returns
    from, after one request per gateway up to it. *)
Lemma tryGateways_first fetch ipfsHash gs : forall i g r,
  gs !! i = Some g ->
  fetch (g +:+ ipfsHash) = Fulfilled r ->
  resp_ok r = true ->
  (forall j g', (j < i)%nat -> gs !! j = Some g' -> ~ answers fetch ipfsHash g') ->
  snd (tryGateways fetch ipfsHash gs) = Some r /\
  length (requested (fst (tryGateways fetch ipfsHash gs))) = S i.
Proof.
  induction gs as [|g0 gs IH]; intros i g r Hg Hf Hok Hbefore; [discriminate|].
  destruct i as [|i]; simpl in Hg.
  - injection Hg as ->. simpl. rewrite Hf, Hok. split; reflexivity.
  - assert (H0 : ~ answers fetch ipfsHash g0) by (apply (Hbefore 0%nat); [lia | reflexivity]).
    destruct (IH i g r Hg Hf Hok) as [Hres Hlen].
    { intros j g' Hj Hg'. apply (Hbefore (S j)); [lia | exact Hg']. }
    simpl. destruct (fetch (g0 +:+ ipfsHash)) as [resp|err] eqn:E0.
    + destruct (resp_ok resp) eqn:Eok0; [exfalso; apply H0; exists resp; auto|].
      destruct (tryGateways fetch ipfsHash gs) as [eff res]. simpl in *.
      split; [exact Hres | f_equal; exact Hlen].
    + destruct (tryGateways fetch ipfsHash gs) as [eff res]. simpl in *.
      split; [exact Hres | f_equal; exact Hlen].
Qed.

(** X18. A gateway that answers is the one [fetchFromIPFS] returns the
    response of as soon as no gateway before it in the list answers,
    whatever the gateways after it would do; the requests made are then as
    many as the gateway's position says, so that a single request is made
    when the preferred gateway answers. *)
Theorem fetch_returns_first_answer :
  forall (fetch : string -> Settled Response) (ipfsHash : string) (i : nat) (g : string)
         (r : Response),
    gateways !! i = Some g ->
    fetch (g +:+ ipfsHash) = Fulfilled r ->
    resp_ok r = true ->
    (forall j g', (j < i)%nat -> gateways !! j = Some g' -> ~ answers fetch ipfsHash g') ->
    snd (fetchFromIPFS fetch ipfsHash) = inl r /\
    length (requested (fst (fetchFromIPFS fetch ipfsHash))) = S i.
Proof.
  intros fetch ipfsHash i g r Hg Hf Hok Hbefore.
  destruct (tryGateways_first fetch ipfsHash gateways i g r Hg Hf Hok Hbefore) as [Hres Hlen].
  unfold fetchFromIPFS.
  destruct (tryGateways fetch ipfsHash gateways) as [effects res]. simpl in *.
  subst res. split; [reflexivity | exact Hlen].
Qed.

Lemma fetch_returns_first_answer_witness :
  let up := mkResponse true 200 "OK" (Rejected "not json") in
  let fetch := fun url =>
    if String.eqb url "https://ipfs.io/ipfs/bafy" then Fulfilled up
    else if String.eqb url "https://gateway.pinata.cloud/ipfs/bafy"
         then Fulfilled (mkResponse false 504 "Gateway Timeout" (Rejected "not json"))
         else Rejected "network error" in
  (gateways !! 2%nat = Some "https://ipfs.io/ipfs/" /\
   fetch ("https://ipfs.io/ipfs/" +:+ "bafy") = Fulfilled up /\
   resp_ok up = true) /\
  snd (fetchFromIPFS fetch "bafy") = inl up /\
  length (requested (fst (fetchFromIPFS fetch "bafy"))) = 3%nat.
Proof.
  intros up fetch. split; [repeat split|].
  apply (fetch_returns_first_answer fetch "bafy" 2%nat "https://ipfs.io/ipfs/" up);
    [reflexivity | reflexivity | reflexivity |].
  intros [|[|j]] g' Hj Hg'; [ | | lia]; simpl in Hg'; injection Hg' as <-;
    intros (r' & Hr' & Hok'); vm_compute in Hr';
    first [discriminate Hr' | injection Hr' as <-; discriminate Hok'].
Defined.

(** X19. What [uploadToIPFS] comes to.  A hash is returned only under a
    non-empty JWT, after the one request to Pinata with that JWT as bearer
    token was answered by an [ok] response whose body parsed, and is that
    body's [IpfsHash]; nothing is toasted then.  Without a JWT no request is
    made and the error is the configuration one.  Every other error is
    thrown after exactly one request and one toast, which carries the
    message of the error thrown. *)
Theorem upload_outcome :
  forall (jwt : option string) (fetch : Effect -> Settled Response) (file : File),
    let (effects, result) := uploadToIPFS jwt fetch file in
    match result with
    | inl hash =>
        exists token r data,
          jwt = Some token /\ token <> "" /\
          effects = [pinRequest token file] /\
          fetch (pinRequest token file) = Fulfilled r /\
          resp_ok r = true /\
          resp_json r = Fulfilled data /\
          hash = body_IpfsHash data
    | inr message =>
        (falsy jwt = true /\
         requested effects = [] /\
         toasts effects = ["File upload is not configured."] /\
         message = "Pinata JWT not found.")
        \/
        (falsy jwt = false /\
         requested effects = ["https://api.pinata.cloud/pinning/pinFileToIPFS"] /\
         toasts effects = ["Upload failed: " +:+ message])
    end.
Proof.
  intros jwt fetch file. unfold uploadToIPFS.
  destruct (falsy jwt) eqn:Hjwt.
  - left. repeat split.
  - destruct jwt as [[|c token]|]; try discriminate Hjwt. simpl default.
    destruct (fetch (pinRequest (String c token) file)) as [r|error] eqn:Hfetch.
    + destruct (resp_ok r) eqn:Hok; simpl negb; cbv iota.
      * destruct (resp_json r) as [data|error] eqn:Hjson.
        -- exists (String c token), r, data. repeat split; try assumption. discriminate.
        -- right. repeat split.
      * right. repeat split.
    + right. repeat split.
Qed.


